(** * Training pipeline: optimizer resolver, training loop and entry point

    A shallow embedding of [src/training_pipeline/training.py]:
    [get_optimizer], [run_training_loop] and [train].

    The program drives external collaborators (torch, torchmetrics, the
    dataset and model modules, the experiment tracker).  They are gathered in
    the class [Collaborators]; the three functions of the file are embedded
    over an arbitrary instance of it.  Python exceptions are values of
    [PyError]; a computation that may raise returns a [result].  The calls
    to [logger] and the [tqdm] wrapper change nothing the program reads back
    and are left out. *)

From Stdlib Require Import ZArith QArith Qround List String Bool Lia.
From stdpp Require Import gmap strings.
Import ListNotations.

Open Scope string_scope.
Open Scope Z_scope.
Open Scope list_scope.

(** ** Exceptions and fallible computations *)

Inductive PyError : Type :=
| NotImplementedError (msg : string)
| ZeroDivisionError
| TypeError
| ValueError
| KeyError (key : string)
| UnboundLocalError (var : string)
| Exception (msg : string)
| ExternalError (msg : string).

Inductive result (A : Type) : Type :=
| Ok (a : A)
| Raise (e : PyError).

Arguments Ok {A} a.
Arguments Raise {A} e.

Definition bind {A B : Type} (r : result A) (k : A -> result B) : result B :=
  match r with
  | Ok a => k a
  | Raise e => Raise e
  end.

Notation "'do' x <- r ; k" := (bind r (fun x => k))
  (at level 10, x name, r at level 100, k at level 200).

Definition is_ok {A : Type} (r : result A) : bool :=
  match r with Ok _ => true | Raise _ => false end.

(** ** Python operators used by the file *)

(** [s in [a, b]] on strings. *)
Definition py_in (s : string) (l : list string) : bool :=
  existsb (String.eqb s) l.

(** [needle in hay] on strings: [needle] occurs in [hay]. *)
Fixpoint contains (needle hay : string) : bool :=
  String.prefix needle hay ||
  match hay with
  | EmptyString => false
  | String _ rest => contains needle rest
  end.

(** Truth value of a string: the empty string alone is false. *)
Definition truthy_str (s : string) : bool := negb (String.eqb s "").

(** Truth value of a [bool | None]. *)
Definition truthy (b : option bool) : bool :=
  match b with
  | Some true => true
  | Some false | None => false
  end.

(** Case folding of ASCII text (Python's [str.lower]).  The file never
    folds case; this is there to say that two spellings differ by casing
    only. *)
Definition lower_ascii (c : Ascii.ascii) : Ascii.ascii :=
  let n := Ascii.nat_of_ascii c in
  if (Nat.leb 65 n && Nat.leb n 90)%bool then Ascii.ascii_of_nat (n + 32) else c.

Fixpoint lower (s : string) : string :=
  match s with
  | EmptyString => EmptyString
  | String c rest => String (lower_ascii c) (lower rest)
  end.

(** ** Values of the program *)

(** [model_fn.training]: the two modes of a torch module. *)
Inductive Mode : Type := Training | Evaluation.

Inductive Device : Type := Cuda | Cpu.

(** One entry of [default_layer_config] in [train]. *)
Record LayerConfig : Type := {
  layer_type : string;
  out_channels : Z;
  kernel_size : Z;
  padding : Z;
  pooling : bool;
  stride : Z
}.

(** ** The collaborators

    Everything the file imports and calls.  Numbers are Python floats (and
    zero-dimensional tensors); the embedding only needs their zero, their
    addition and their division by an integer, so it is parametric in them.
    [Params] is the state of the model's parameters, gradient buffers
    included; the optimizer is bound to it, so every operation that touches
    the parameters takes and returns it explicitly. *)

Class Collaborators : Type := {
  float : Type;
  fzero : float;
  fadd : float -> float -> float;
  fdiv : float -> Z -> float;

  Params : Type;
  Optimizer : Type;
  Images : Type;
  Labels : Type;
  Output : Type;
  Loss : Type;
  Preds : Type;
  Blob : Type;
  Path : Type;

  (* torch.optim: Adam(params, lr, weight_decay),
     SGD(params, lr, momentum, weight_decay),
     RMSprop(params, lr, weight_decay, momentum) *)
  Adam : Params -> option float -> option float -> result Optimizer;
  SGD : Params -> option float -> option float -> option float -> result Optimizer;
  RMSprop : Params -> option float -> option float -> option float -> result Optimizer;

  (* optimizer.zero_grad(), optimizer.step() *)
  zero_grad : Optimizer -> Params -> Params;
  step : Optimizer -> Params -> Optimizer * Params;

  (* model_fn.to(device) *)
  params_to : Device -> Params -> Params;
  (* model_fn.forward(images) reads the mode flag and torch's grad mode *)
  forward : Mode -> bool -> Params -> Images -> Output;
  (* CrossEntropyLoss()(output, labels), loss.item(), loss.backward() *)
  CrossEntropyLoss : Output -> Labels -> Loss;
  item : Loss -> float;
  backward : Loss -> Params -> Params;
  (* torch.max(input=output, dim=1)[1] *)
  predictions_of : Output -> Preds;
  (* torchmetrics, macro averaged over get_num_classes() classes *)
  recall : Preds -> Labels -> float;
  accuracy : Preds -> Labels -> float;
  precision : Preds -> Labels -> float;
  (* model_fn.state_dict() *)
  state_dict : Params -> Blob;
  (* tensor.to(device), torch.cuda.is_available() *)
  images_to : Device -> Images -> Images;
  labels_to : Device -> Labels -> Labels;
  cuda_is_available : bool;

  (* src.setup.paths *)
  TRAIN_DATA_DIR : Path;
  VAL_DATA_DIR : Path;
  MODELS_DIR : Path;
  (* src.feature_pipeline.data_preparation *)
  make_dataset : Path -> Z -> list (Images * Labels);
  get_num_classes : Z;
  (* src.training_pipeline.models *)
  BaseCNN : Z -> result Params;
  DynamicCNN : Z -> Z -> list LayerConfig -> option float -> result Params;
  BiggerCNN : Z -> Z -> option bool -> result Params;
  get_resnet : string -> result Params;
  (* src.training_pipeline.hyperparameter_tuning *)
  optimize_hyperparams : string -> option Z -> Z -> result unit
}.

(** ** [get_optimizer] *)

Section Resolver.
Context `{C : Collaborators}.

(** The dict literal of lines 56-63.  Python evaluates its three values in
    order, so the three constructors run on every call, and the first one
    that raises ends the call. *)
Definition optimizers_and_likely_spellings
    (params : Params) (learning_rate weight_decay momentum : option float)
    : result (list (list string * Optimizer)) :=
  do adam <- Adam params learning_rate weight_decay;
  do sgd <- SGD params learning_rate momentum weight_decay;
  do rmsprop <- RMSprop params learning_rate weight_decay momentum;
  Ok [ (["adam"; "Adam"], adam);
       (["sgd"; "SGD"], sgd);
       (["rmsprop"; "RMSprop"; "RMSProp"], rmsprop) ].

(** The dict comprehension of lines 65-67: one key per spelling; a later
    entry would overwrite an earlier one with the same key. *)
Definition optimizer_for_each_spelling
    (table : list (list string * Optimizer)) : gmap string Optimizer :=
  fold_left
    (fun d entry =>
       fold_left (fun d' spelling => <[spelling := snd entry]> d') (fst entry) d)
    table ∅.

Definition not_implemented_msg : string :=
  "Consider using the Adam, SGD, or RMSprop optimizers".

Definition get_optimizer
    (model_fn : Params) (optimizer_name : option string)
    (learning_rate weight_decay momentum : option float)
    : result Optimizer :=
  do table <- optimizers_and_likely_spellings model_fn learning_rate weight_decay momentum;
  let by_spelling := optimizer_for_each_spelling table in
  match optimizer_name with
  | Some name =>
      match by_spelling !! name with
      | Some optimizer => Ok optimizer
      | None => Raise (NotImplementedError not_implemented_msg)
      end
  | None =>
      (* Choose Adam by default *)
      match by_spelling !! "adam" with
      | Some optimizer => Ok optimizer
      | None => Raise (KeyError "adam")
      end
  end.

(** The seven keys of [optimizer_for_each_spelling]. *)
Definition spellings : list string :=
  ["adam"; "Adam"; "sgd"; "SGD"; "rmsprop"; "RMSprop"; "RMSProp"].

End Resolver.

(** ** [run_training_loop] *)

Section Loop.
Context `{C : Collaborators}.

(** Phase T is the training pass of an epoch (lines 135-158), phase V its
    validation pass (lines 161-222). *)
Inductive Phase : Type := PhaseT | PhaseV.

Inductive Quantity : Type := QLoss | QRecall | QAccuracy | QPrecision.

(** The dict [val_metrics] of lines 205-212. *)
Record EpochMetrics : Type := {
  Epoch : Z;
  Average_Training_Loss : float;
  Average_Validation_loss : float;
  Average_Validation_Accuracy : float;
  Average_Validation_Recall : float;
  Average_Validation_Precision : float
}.

(** What the loop does to the outside, in order.  [EvForward] is a call of
    [model_fn.forward], with the mode flag and the grad mode it ran under;
    [EvValue] is a per-batch value as the loop obtains it (a loss from
    [criterion(...).item()], a metric from torchmetrics); the other three
    are the calls to the experiment tracker and to [torch.save]. *)
Inductive Event : Type :=
| EvForward (ph : Phase) (m : Mode) (grad : bool)
| EvValue (ph : Phase) (q : Quantity) (v : float)
| EvLogMetrics (r : EpochMetrics)
| EvLogConfusionMatrix (y_true : Labels) (y_predicted : Preds)
| EvTorchSave (blob : Blob) (path : Path)
| EvOptimizeHyperparams (model_name : string) (tuning_trials : option Z) (batch_size : Z).

(** The mutable objects the loop shares with its callees: the model (mode
    flag and parameters), the optimizer bound to those parameters, torch's
    global grad mode, and the calls made so far. *)
Record World : Type := {
  w_mode : Mode;
  w_params : Params;
  w_optimizer : Optimizer;
  w_grad_enabled : bool;
  w_trace : list Event
}.

Definition set_mode (m : Mode) (w : World) : World :=
  {| w_mode := m; w_params := w_params w; w_optimizer := w_optimizer w;
     w_grad_enabled := w_grad_enabled w; w_trace := w_trace w |}.

Definition set_params (p : Params) (w : World) : World :=
  {| w_mode := w_mode w; w_params := p; w_optimizer := w_optimizer w;
     w_grad_enabled := w_grad_enabled w; w_trace := w_trace w |}.

Definition set_optimizer (o : Optimizer) (w : World) : World :=
  {| w_mode := w_mode w; w_params := w_params w; w_optimizer := o;
     w_grad_enabled := w_grad_enabled w; w_trace := w_trace w |}.

Definition set_grad_enabled (g : bool) (w : World) : World :=
  {| w_mode := w_mode w; w_params := w_params w; w_optimizer := w_optimizer w;
     w_grad_enabled := g; w_trace := w_trace w |}.

Definition emit (ev : Event) (w : World) : World :=
  {| w_mode := w_mode w; w_params := w_params w; w_optimizer := w_optimizer w;
     w_grad_enabled := w_grad_enabled w; w_trace := w_trace w ++ [ev] |}.

(** The four averages of an epoch, as the local variables of lines 192-195. *)
Record ValAverages : Type := {
  val_loss_avg : float;
  val_recall_avg : float;
  val_accuracy_avg : float;
  val_precision_avg : float
}.

(** The local variables that outlive an iteration of a loop; [None] is a
    name that is not bound yet. *)
Record Locals : Type := {
  l_labels : option Labels;
  l_predictions : option Preds;
  l_averages : option ValAverages
}.

(** The running totals of phase V (lines 164-167). *)
Record ValTotals : Type := {
  val_loss_total : float;
  val_recall_total : float;
  val_accuracy_total : float;
  val_precision_total : float
}.

(** [float / int] in Python: a zero divisor raises. *)
Definition py_truediv (x : float) (n : Z) : result float :=
  if n =? 0 then Raise ZeroDivisionError else Ok (fdiv x n).

(** [len] of a data loader (or of its iterator): its number of batches. *)
Definition len {A : Type} (loader : list A) : Z := Z.of_nat (length loader).

(** [range(n)] *)
Definition range (n : Z) : list Z := map Z.of_nat (seq 0 (Z.to_nat n)).

(** One iteration of the loop of lines 140-156. *)
Definition train_batch (criterion : Output -> Labels -> Loss) (device : Device)
    (st : World * float * option Labels) (batch : Images * Labels)
    : World * float * option Labels :=
  let '(w, training_loss_total, _) := st in
  let w := set_params (zero_grad (w_optimizer w) (w_params w)) w in
  let images := images_to device (fst batch) in
  let labels := labels_to device (snd batch) in
  let output := forward (w_mode w) (w_grad_enabled w) (w_params w) images in
  let w := emit (EvForward PhaseT (w_mode w) (w_grad_enabled w)) w in
  let training_loss := criterion output labels in
  let w := set_params (backward training_loss (w_params w)) w in
  let w := set_optimizer (fst (step (w_optimizer w) (w_params w)))
             (set_params (snd (step (w_optimizer w) (w_params w))) w) in
  let w := emit (EvValue PhaseT QLoss (item training_loss)) w in
  (w, fadd training_loss_total (item training_loss), Some labels).

(** One iteration of the loop of lines 175-190. *)
Definition val_batch (criterion : Output -> Labels -> Loss) (device : Device)
    (st : World * ValTotals * option Labels * option Preds) (batch : Images * Labels)
    : World * ValTotals * option Labels * option Preds :=
  let '(w, totals, _, _) := st in
  let images := images_to device (fst batch) in
  let labels := labels_to device (snd batch) in
  let output := forward (w_mode w) (w_grad_enabled w) (w_params w) images in
  let w := emit (EvForward PhaseV (w_mode w) (w_grad_enabled w)) w in
  let val_loss := item (criterion output labels) in
  let w := emit (EvValue PhaseV QLoss val_loss) w in
  let predictions := predictions_of output in
  let val_recall := recall predictions labels in
  let w := emit (EvValue PhaseV QRecall val_recall) w in
  let val_accuracy := accuracy predictions labels in
  let w := emit (EvValue PhaseV QAccuracy val_accuracy) w in
  let val_precision := precision predictions labels in
  let w := emit (EvValue PhaseV QPrecision val_precision) w in
  (w,
   {| val_loss_total := fadd (val_loss_total totals) val_loss;
      val_recall_total := fadd (val_recall_total totals) val_recall;
      val_accuracy_total := fadd (val_accuracy_total totals) val_accuracy;
      val_precision_total := fadd (val_precision_total totals) val_precision |},
   Some labels, Some predictions).

Definition zero_totals : ValTotals :=
  {| val_loss_total := fzero; val_recall_total := fzero;
     val_accuracy_total := fzero; val_precision_total := fzero |}.

(** The body of the epoch loop (lines 132-222).  [train_loader] and
    [train_len] are the loader and the [len(train_iterator)] of lines
    121-122, made once before the loop.  The block under [torch.no_grad()]
    runs to the end of the body; leaving it, normally or by an exception,
    restores the grad mode. *)
Definition run_epoch (criterion : Output -> Labels -> Loss) (device : Device)
    (train_loader : list (Images * Labels)) (train_len : Z) (batch_size : Z)
    (epoch : Z) (loc : Locals) (w : World) : result Locals * World :=
  let w := set_mode Training w in
  let '(w, training_loss_total, labels) :=
    fold_left (train_batch criterion device) train_loader (w, fzero, l_labels loc) in
  match py_truediv training_loss_total train_len with
  | Raise e => (Raise e, w)
  | Ok training_loss_avg =>
    let w := set_mode Evaluation w in
    let val_data_loader := make_dataset VAL_DATA_DIR batch_size in
    let val_len := len val_data_loader in
    let outer_grad := w_grad_enabled w in
    let w := set_grad_enabled false w in
    let '(w, totals, labels, predictions) :=
      fold_left (val_batch criterion device) val_data_loader
        (w, zero_totals, labels, l_predictions loc) in
    match py_truediv (val_loss_total totals) val_len with
    | Raise e => (Raise e, set_grad_enabled outer_grad w)
    | Ok loss_avg =>
      let averages :=
        {| val_loss_avg := loss_avg;
           val_recall_avg := fdiv (val_recall_total totals) val_len;
           val_accuracy_avg := fdiv (val_accuracy_total totals) val_len;
           val_precision_avg := fdiv (val_precision_total totals) val_len |} in
      let val_metrics :=
        {| Epoch := epoch;
           Average_Training_Loss := training_loss_avg;
           Average_Validation_loss := val_loss_avg averages;
           Average_Validation_Accuracy := val_accuracy_avg averages;
           Average_Validation_Recall := val_recall_avg averages;
           Average_Validation_Precision := val_precision_avg averages |} in
      let w := emit (EvLogMetrics val_metrics) w in
      match labels, predictions with
      | Some y_true, Some y_predicted =>
        let w := emit (EvLogConfusionMatrix y_true y_predicted) w in
        (Ok {| l_labels := labels; l_predictions := predictions;
               l_averages := Some averages |},
         set_grad_enabled outer_grad w)
      | None, _ => (Raise (UnboundLocalError "labels"), set_grad_enabled outer_grad w)
      | _, None => (Raise (UnboundLocalError "predictions"), set_grad_enabled outer_grad w)
      end
    end
  end.

(** [for epoch in range(num_epochs)]: an exception leaves the loop. *)
Fixpoint run_epochs (criterion : Output -> Labels -> Loss) (device : Device)
    (train_loader : list (Images * Labels)) (train_len : Z) (batch_size : Z)
    (epochs : list Z) (loc : Locals) (w : World) : result Locals * World :=
  match epochs with
  | [] => (Ok loc, w)
  | epoch :: rest =>
    match run_epoch criterion device train_loader train_len batch_size epoch loc w with
    | (Ok loc', w') =>
      run_epochs criterion device train_loader train_len batch_size rest loc' w'
    | (Raise e, w') => (Raise e, w')
    end
  end.

Definition no_locals : Locals :=
  {| l_labels := None; l_predictions := None; l_averages := None |}.

(** [run_training_loop(model_fn, criterion, save, optimizer, num_epochs,
    batch_size)].  The model and the optimizer are the objects held by [w];
    the function returns its list of four numbers (or the exception) and
    the objects as it leaves them. *)
Definition run_training_loop (w : World) (criterion : Output -> Labels -> Loss)
    (save : bool) (num_epochs : Z) (batch_size : Z) : result (list float) * World :=
  let train_loader := make_dataset TRAIN_DATA_DIR batch_size in
  let train_len := len train_loader in
  let device := if cuda_is_available then Cuda else Cpu in
  let w := set_params (params_to device (w_params w)) w in
  match run_epochs criterion device train_loader train_len batch_size
          (range num_epochs) no_locals w with
  | (Raise e, w) => (Raise e, w)
  | (Ok loc, w) =>
    let w := if save then emit (EvTorchSave (state_dict (w_params w)) MODELS_DIR) w
             else w in
    match l_averages loc with
    | Some a =>
      (Ok [val_loss_avg a; val_accuracy_avg a; val_loss_avg a; val_precision_avg a], w)
    | None => (Raise (UnboundLocalError "val_loss_avg"), w)
    end
  end.

(** *** Reading a trace *)

Definition phase_eqb (a b : Phase) : bool :=
  match a, b with
  | PhaseT, PhaseT | PhaseV, PhaseV => true
  | _, _ => false
  end.

Definition quantity_eqb (a b : Quantity) : bool :=
  match a, b with
  | QLoss, QLoss | QRecall, QRecall | QAccuracy, QAccuracy
  | QPrecision, QPrecision => true
  | _, _ => false
  end.

(** The per-batch values of quantity [q] obtained in phase [ph], in order. *)
Definition values_of (ph : Phase) (q : Quantity) (tr : list Event) : list float :=
  flat_map (fun ev =>
    match ev with
    | EvValue ph' q' v => if phase_eqb ph ph' && quantity_eqb q q' then [v] else []
    | _ => []
    end) tr.

(** The records given to [experiment.log_metrics], in order. *)
Definition logged_metrics (tr : list Event) : list EpochMetrics :=
  flat_map (fun ev => match ev with EvLogMetrics r => [r] | _ => [] end) tr.

(** The calls of [model_fn.forward], in order. *)
Definition forward_calls (tr : list Event) : list (Phase * Mode * bool) :=
  flat_map (fun ev => match ev with EvForward ph m g => [(ph, m, g)] | _ => [] end) tr.

(** A forward pass ran in the mode of its phase: training mode in phase T,
    evaluation mode without gradients in phase V. *)
Definition mode_fits_phase (call : Phase * Mode * bool) : Prop :=
  match call with
  | (PhaseT, m, _) => m = Training
  | (PhaseV, m, g) => m = Evaluation /\ g = false
  end.

(** The writes of [torch.save], in order. *)
Definition saved (tr : list Event) : list (Blob * Path) :=
  flat_map (fun ev => match ev with EvTorchSave b p => [(b, p)] | _ => [] end) tr.

(** A sum as the loop accumulates it: from [0.0], left to right. *)
Definition fsum (vs : list float) : float := fold_left fadd vs fzero.

(** *** The calls of one epoch, given the values it obtained *)

Record BatchValues : Type := {
  b_loss : float;
  b_recall : float;
  b_accuracy : float;
  b_precision : float
}.

Definition train_events (m : Mode) (g : bool) (losses : list float) : list Event :=
  flat_map (fun v => [EvForward PhaseT m g; EvValue PhaseT QLoss v]) losses.

Definition val_events (m : Mode) (g : bool) (rows : list BatchValues) : list Event :=
  flat_map (fun r =>
    [EvForward PhaseV m g; EvValue PhaseV QLoss (b_loss r);
     EvValue PhaseV QRecall (b_recall r); EvValue PhaseV QAccuracy (b_accuracy r);
     EvValue PhaseV QPrecision (b_precision r)]) rows.

(** The averages and the record of an epoch whose training losses were
    [losses] and whose validation values were [rows]. *)
Definition averages_of (rows : list BatchValues) (val_len : Z) : ValAverages :=
  {| val_loss_avg := fdiv (fsum (map b_loss rows)) val_len;
     val_recall_avg := fdiv (fsum (map b_recall rows)) val_len;
     val_accuracy_avg := fdiv (fsum (map b_accuracy rows)) val_len;
     val_precision_avg := fdiv (fsum (map b_precision rows)) val_len |}.

Definition metrics_of (epoch : Z) (losses : list float) (train_len : Z)
    (rows : list BatchValues) (val_len : Z) : EpochMetrics :=
  {| Epoch := epoch;
     Average_Training_Loss := fdiv (fsum losses) train_len;
     Average_Validation_loss := fdiv (fsum (map b_loss rows)) val_len;
     Average_Validation_Accuracy := fdiv (fsum (map b_accuracy rows)) val_len;
     Average_Validation_Recall := fdiv (fsum (map b_recall rows)) val_len;
     Average_Validation_Precision := fdiv (fsum (map b_precision rows)) val_len |}.

(** What one completed epoch obtained. *)
Record EpochRun : Type := {
  er_losses : list float;
  er_rows : list BatchValues;
  er_y_true : Labels;
  er_y_predicted : Preds
}.

Definition epoch_events (grad : bool) (train_len val_len : Z) (epoch : Z)
    (er : EpochRun) : list Event :=
  train_events Training grad (er_losses er) ++
  val_events Evaluation false (er_rows er) ++
  [EvLogMetrics (metrics_of epoch (er_losses er) train_len (er_rows er) val_len);
   EvLogConfusionMatrix (er_y_true er) (er_y_predicted er)].

(** The value of quantity [q] in the values of a validation batch. *)
Definition pick (q : Quantity) (r : BatchValues) : float :=
  match q with
  | QLoss => b_loss r
  | QRecall => b_recall r
  | QAccuracy => b_accuracy r
  | QPrecision => b_precision r
  end.

(** [seg] is the list of calls of a completed epoch [e] over [n_train]
    training batches and [n_val] validation batches. *)
Definition epoch_segment (g : bool) (n_train n_val : nat) (e : Z) (seg : list Event) : Prop :=
  exists er,
    length (er_losses er) = n_train /\
    length (er_rows er) = n_val /\
    seg = epoch_events g (Z.of_nat n_train) (Z.of_nat n_val) e er.

(** The running totals, one validation batch later. *)
Definition add_values (totals : ValTotals) (r : BatchValues) : ValTotals :=
  {| val_loss_total := fadd (val_loss_total totals) (b_loss r);
     val_recall_total := fadd (val_recall_total totals) (b_recall r);
     val_accuracy_total := fadd (val_accuracy_total totals) (b_accuracy r);
     val_precision_total := fadd (val_precision_total totals) (b_precision r) |}.

End Loop.

(** ** [train] *)

Section Entry.
Context `{C : Collaborators}.

Definition default_layer_config : list LayerConfig :=
  [ {| layer_type := "conv"; out_channels := 8; kernel_size := 3; padding := 1;
       pooling := true; stride := 1 |};
    {| layer_type := "conv"; out_channels := 16; kernel_size := 3; padding := 1;
       pooling := true; stride := 1 |} ].

(** The text of the exception of lines 311-313, its inner quotation marks
    left out. *)
Definition unknown_model_msg : string :=
  "Please enter base, dynamic (for the base and dynamic models respectively), or the name of a ResNet.".

(** The if-chain of lines 278-313.  Its fourth condition is the Python
    expression [ "resnet" or "Resnet" or "ResNet" in model_name ]: [or]
    yields its first operand when that one is true. *)
Definition select_model (model_name : string) (dropout_prob : option float)
    (tune_hyperparams : option bool) (num_classes : Z) : result Params :=
  if py_in model_name ["base"; "Base"] then
    BaseCNN num_classes
  else if py_in model_name ["dynamic"; "Dynamic"] then
    DynamicCNN 3 num_classes default_layer_config dropout_prob
  else if py_in model_name ["bigger"; "Bigger"] then
    BiggerCNN 3 num_classes tune_hyperparams
  else if truthy_str "resnet" || truthy_str "Resnet" || contains "ResNet" model_name then
    get_resnet model_name
  else
    Raise (Exception unknown_model_msg).

(** A model as its constructor leaves it (a torch module starts in training
    mode, torch starts with gradients enabled), with the optimizer bound to
    it. *)
Definition initial_world (model_fn : Params) (optimizer : Optimizer) : World :=
  {| w_mode := Training; w_params := model_fn; w_optimizer := optimizer;
     w_grad_enabled := true; w_trace := [] |}.

(** Lines 315-332: the optimizer is resolved, then the loop runs with
    [save=True]. *)
Definition train_model (model_fn : Params) (batch_size : Z)
    (learning_rate weight_decay momentum : option float) (num_epochs : Z)
    (optimizer_name : option string) : result unit * list Event :=
  match get_optimizer model_fn optimizer_name learning_rate weight_decay momentum with
  | Raise e => (Raise e, [])
  | Ok chosen_optimizer =>
    let '(val_metrics, w) :=
      run_training_loop (initial_world model_fn chosen_optimizer) CrossEntropyLoss
        true num_epochs batch_size in
    (do _ <- val_metrics; Ok tt, w_trace w)
  end.

(** [train(...)]: returns nothing; what it does is the list of events. *)
Definition train (model_name : string) (batch_size : Z)
    (learning_rate weight_decay momentum dropout_prob : option float)
    (num_epochs : Z) (optimizer_name : option string)
    (tune_hyperparams : option bool) (tuning_trials : option Z)
    : result unit * list Event :=
  let num_classes := get_num_classes in
  if negb (truthy tune_hyperparams) then
    match select_model model_name dropout_prob tune_hyperparams num_classes with
    | Raise e => (Raise e, [])
    | Ok model_fn =>
      train_model model_fn batch_size learning_rate weight_decay momentum
        num_epochs optimizer_name
    end
  else
    (optimize_hyperparams model_name tuning_trials batch_size,
     [EvOptimizeHyperparams model_name tuning_trials batch_size]).

(** The call at the end of the module (lines 348-358); [tuning_trials]
    takes its default. *)
Definition module_level_call : result unit * list Event :=
  train "resnet50" 20 None None None None 20 None (Some true) (Some 10).

End Entry.

(** ** torch's optimizer constructors

    The hyperparameter checks at the head of [torch.optim.Adam.__init__],
    [SGD.__init__] and [RMSprop.__init__].  Each compares the value with
    [0.0]: on [None] the comparison itself raises [TypeError], on a negative
    number the constructor raises [ValueError].  Adam checks [lr] and
    [weight_decay]; SGD checks [lr], [momentum], [weight_decay]; RMSprop
    checks [lr], [momentum], [weight_decay].  Floats are rationals here. *)

Module Torch.

Inductive Family : Type := FAdam | FSGD | FRMSprop.

Record optimizer : Type := {
  family : Family;
  lr : Q;
  weight_decay : Q;
  momentum : option Q
}.

Definition check (x : option Q) : result Q :=
  match x with
  | None => Raise TypeError
  | Some q => if Qle_bool 0 q then Ok q else Raise ValueError
  end.

Definition Adam {P : Type} (params : P) (learning_rate weight_decay : option Q)
    : result optimizer :=
  do l <- check learning_rate;
  do wd <- check weight_decay;
  Ok {| family := FAdam; lr := l; weight_decay := wd; momentum := None |}.

Definition SGD {P : Type} (params : P) (learning_rate momentum weight_decay : option Q)
    : result optimizer :=
  do l <- check learning_rate;
  do m <- check momentum;
  do wd <- check weight_decay;
  Ok {| family := FSGD; lr := l; weight_decay := wd; momentum := Some m |}.

Definition RMSprop {P : Type} (params : P) (learning_rate weight_decay momentum : option Q)
    : result optimizer :=
  do l <- check learning_rate;
  do m <- check momentum;
  do wd <- check weight_decay;
  Ok {| family := FRMSprop; lr := l; weight_decay := wd; momentum := Some m |}.

End Torch.

(** ** A small instance

    A one-weight linear model on rational inputs, three classes, a training
    stream of two batches and a validation stream of two batches.  It is
    there to run the embedding on concrete inputs; the optimizer
    constructors are torch's checks above. *)

Module Toy.

(** weight and gradient buffer *)
Definition params : Type := (Q * Q)%type.

Definition toy_forward (m : Mode) (grad : bool) (p : params) (x : Q) : Q :=
  match m with
  | Training => (fst p * x) * (1 # 2)
  | Evaluation => fst p * x
  end%Q.

Definition toy_loss (out : Q) (y : Z) : Q * Q :=
  (Qred ((out - inject_Z y) * (out - inject_Z y)), Qred (out - inject_Z y)).

Definition toy_step (o : Torch.optimizer) (p : params) : Torch.optimizer * params :=
  (o, (Qred (fst p - Torch.lr o * snd p), snd p)).

Definition hit (pred y : Z) : Q := if pred =? y then 1%Q else 0%Q.

Definition toy_dataset (path : string) (batch_size : Z) : list (Q * Z) :=
  if String.eqb path "train" then [(1%Q, 1); (2%Q, 2)]
  else if String.eqb path "val" then [(1%Q, 1); ((3 # 2)%Q, 2)]
  else [].

Definition toy_resnet (model_name : string) : result params :=
  if contains "resnet" model_name then Ok (1%Q, 0%Q)
  else Raise (ExternalError model_name).

Definition collaborators_at (train_dir val_dir : string) : Collaborators := {|
  float := Q;
  fzero := 0%Q;
  fadd := fun x y => Qred (x + y);
  fdiv := fun x n => Qred (x / inject_Z n);
  Params := params;
  Optimizer := Torch.optimizer;
  Images := Q;
  Labels := Z;
  Output := Q;
  Loss := (Q * Q)%type;
  Preds := Z;
  Blob := Q;
  Path := string;
  Adam := Torch.Adam;
  SGD := Torch.SGD;
  RMSprop := Torch.RMSprop;
  zero_grad := fun _ p => (fst p, 0%Q);
  step := toy_step;
  params_to := fun _ p => p;
  forward := toy_forward;
  CrossEntropyLoss := toy_loss;
  item := fst;
  backward := fun l p => (fst p, Qred (snd p + snd l));
  predictions_of := Qfloor;
  recall := hit;
  accuracy := hit;
  precision := hit;
  state_dict := fst;
  images_to := fun _ x => x;
  labels_to := fun _ y => y;
  cuda_is_available := false;
  TRAIN_DATA_DIR := train_dir;
  VAL_DATA_DIR := val_dir;
  MODELS_DIR := "models";
  make_dataset := toy_dataset;
  get_num_classes := 3;
  BaseCNN := fun _ => Ok (1%Q, 0%Q);
  DynamicCNN := fun _ _ _ _ => Ok (1%Q, 0%Q);
  BiggerCNN := fun _ _ _ => Ok (1%Q, 0%Q);
  get_resnet := toy_resnet;
  optimize_hyperparams := fun _ _ _ => Ok tt
|}.

(** The instance with both streams in place. *)
Definition collaborators : Collaborators := collaborators_at "train" "val".

(** The same with a validation directory that holds no batch. *)
Definition no_validation : Collaborators := collaborators_at "train" "nothing".

(** The same with a training directory that holds no batch. *)
Definition no_training : Collaborators := collaborators_at "nothing" "val".

Definition sgd : Torch.optimizer :=
  {| Torch.family := Torch.FSGD; Torch.lr := 1 # 10; Torch.weight_decay := 0;
     Torch.momentum := Some 0%Q |}.

(** A fresh model bound to [sgd], under each of the three instances. *)
Definition world : @World collaborators := @initial_world collaborators (1%Q, 0%Q) sgd.

Definition world_no_validation : @World no_validation :=
  @initial_world no_validation (1%Q, 0%Q) sgd.

Definition world_no_training : @World no_training :=
  @initial_world no_training (1%Q, 0%Q) sgd.

End Toy.

(** ** More readers of a trace *)

Section MoreReaders.
Context `{C : Collaborators}.

(** The label and prediction pairs given to
    [experiment.log_confusion_matrix], in order. *)
Definition confusion_matrices (tr : list Event) : list (Labels * Preds) :=
  flat_map (fun ev =>
    match ev with
    | EvLogConfusionMatrix y_true y_predicted => [(y_true, y_predicted)]
    | _ => []
    end) tr.

(** The device picked at line 126. *)
Definition chosen_device : Device := if cuda_is_available then Cuda else Cpu.

End MoreReaders.


(** * Properties *)

(** ** The resolver *)

Section ResolverFacts.
Context `{C : Collaborators}.

(** The dict of spellings, read at any key. *)
Lemma optimizer_for_each_spelling_lookup (adam sgd rmsprop : Optimizer) (name : string) :
  optimizer_for_each_spelling
    [ (["adam"; "Adam"], adam); (["sgd"; "SGD"], sgd);
      (["rmsprop"; "RMSprop"; "RMSProp"], rmsprop) ] !! name =
  if py_in name ["adam"; "Adam"] then Some adam
  else if py_in name ["sgd"; "SGD"] then Some sgd
  else if py_in name ["rmsprop"; "RMSprop"; "RMSProp"] then Some rmsprop
  else None.
Proof.
  unfold optimizer_for_each_spelling, py_in. cbn [fold_left fst snd existsb].
  repeat (rewrite lookup_insert; case_decide as Hk;
          [ subst name; reflexivity
          | apply not_eq_sym, String.eqb_neq in Hk; rewrite Hk; clear Hk ]).
  rewrite lookup_empty. reflexivity.
Qed.

(** What [get_optimizer] returns once the three constructors have returned. *)
Lemma get_optimizer_built (params : Params) (name : option string)
    (learning_rate weight_decay momentum : option float)
    (adam sgd rmsprop : Optimizer) :
  Adam params learning_rate weight_decay = Ok adam ->
  SGD params learning_rate momentum weight_decay = Ok sgd ->
  RMSprop params learning_rate weight_decay momentum = Ok rmsprop ->
  get_optimizer params name learning_rate weight_decay momentum =
  match name with
  | None => Ok adam
  | Some n =>
    if py_in n ["adam"; "Adam"] then Ok adam
    else if py_in n ["sgd"; "SGD"] then Ok sgd
    else if py_in n ["rmsprop"; "RMSprop"; "RMSProp"] then Ok rmsprop
    else Raise (NotImplementedError not_implemented_msg)
  end.
Proof.
  intros Ha Hs Hr. unfold get_optimizer, optimizers_and_likely_spellings.
  rewrite Ha, Hs, Hr. cbn [bind].
  destruct name as [n|]; rewrite optimizer_for_each_spelling_lookup.
  - destruct (py_in n ["adam"; "Adam"]); [reflexivity|].
    destruct (py_in n ["sgd"; "SGD"]); [reflexivity|].
    destruct (py_in n ["rmsprop"; "RMSprop"; "RMSProp"]); reflexivity.
  - reflexivity.
Qed.

Lemma py_in_In (s : string) (l : list string) : py_in s l = true <-> In s l.
Proof.
  unfold py_in. rewrite existsb_exists. split.
  - intros [x [Hx Heq]]. apply String.eqb_eq in Heq. subst. exact Hx.
  - intros Hin. exists s. split; [exact Hin | apply String.eqb_refl].
Qed.

Lemma py_in_not_In (s : string) (l : list string) : ~ In s l -> py_in s l = false.
Proof.
  intros Hn. destruct (py_in s l) eqn:E; [|reflexivity].
  apply py_in_In in E. contradiction.
Qed.

(** The resolver returns only after the three constructors have. *)
Lemma get_optimizer_ok_inv (params : Params) (name : option string)
    (learning_rate weight_decay momentum : option float) (o : Optimizer) :
  get_optimizer params name learning_rate weight_decay momentum = Ok o ->
  exists adam sgd rmsprop,
    Adam params learning_rate weight_decay = Ok adam /\
    SGD params learning_rate momentum weight_decay = Ok sgd /\
    RMSprop params learning_rate weight_decay momentum = Ok rmsprop.
Proof.
  unfold get_optimizer, optimizers_and_likely_spellings. intros H.
  destruct (Adam params learning_rate weight_decay) as [a|]; [|discriminate].
  destruct (SGD params learning_rate momentum weight_decay) as [s|]; [|discriminate].
  destruct (RMSprop params learning_rate weight_decay momentum) as [r|]; [|discriminate].
  exists a, s, r. repeat split.
Qed.

(** C10.  Whatever name is asked for, and also when none is, the resolver
    first builds the Adam, the SGD and the RMSprop optimizer, in that order:
    it returns only if all three constructors returned, and the first
    constructor to raise makes the resolver raise that very exception, also
    when the family asked for is another one. *)
Theorem get_optimizer_constructs_every_family (params : Params) (name : option string)
    (learning_rate weight_decay momentum : option float) :
  (forall o, get_optimizer params name learning_rate weight_decay momentum = Ok o ->
     exists adam sgd rmsprop,
       Adam params learning_rate weight_decay = Ok adam /\
       SGD params learning_rate momentum weight_decay = Ok sgd /\
       RMSprop params learning_rate weight_decay momentum = Ok rmsprop) /\
  (forall e, Adam params learning_rate weight_decay = Raise e ->
     get_optimizer params name learning_rate weight_decay momentum = Raise e) /\
  (forall adam e, Adam params learning_rate weight_decay = Ok adam ->
     SGD params learning_rate momentum weight_decay = Raise e ->
     get_optimizer params name learning_rate weight_decay momentum = Raise e) /\
  (forall adam sgd e, Adam params learning_rate weight_decay = Ok adam ->
     SGD params learning_rate momentum weight_decay = Ok sgd ->
     RMSprop params learning_rate weight_decay momentum = Raise e ->
     get_optimizer params name learning_rate weight_decay momentum = Raise e).
Proof.
  split; [intros o H; exact (get_optimizer_ok_inv _ _ _ _ _ o H)|].
  unfold get_optimizer, optimizers_and_likely_spellings.
  repeat split.
  - intros e ->. reflexivity.
  - intros a e -> ->. reflexivity.
  - intros a s e -> -> ->. reflexivity.
Qed.

(** C2, as the code has it.  A name outside the seven spellings never yields
    an optimizer; the exception is [NotImplementedError] when the three
    constructors accept the hyperparameters (otherwise it is the exception
    of the first constructor that rejects them, see C10). *)
Theorem unlisted_name_is_never_resolved (params : Params) (name : string)
    (learning_rate weight_decay momentum : option float) :
  ~ In name spellings ->
  (forall o, get_optimizer params (Some name) learning_rate weight_decay momentum <> Ok o) /\
  (forall adam sgd rmsprop,
     Adam params learning_rate weight_decay = Ok adam ->
     SGD params learning_rate momentum weight_decay = Ok sgd ->
     RMSprop params learning_rate weight_decay momentum = Ok rmsprop ->
     get_optimizer params (Some name) learning_rate weight_decay momentum =
     Raise (NotImplementedError not_implemented_msg)).
Proof.
  intros Hname.
  assert (Hraise : forall adam sgd rmsprop,
     Adam params learning_rate weight_decay = Ok adam ->
     SGD params learning_rate momentum weight_decay = Ok sgd ->
     RMSprop params learning_rate weight_decay momentum = Ok rmsprop ->
     get_optimizer params (Some name) learning_rate weight_decay momentum =
     Raise (NotImplementedError not_implemented_msg)).
  { intros a s r Ha Hs Hr. rewrite (get_optimizer_built _ _ _ _ _ a s r Ha Hs Hr).
    rewrite !py_in_not_In; [reflexivity | | |];
      intros Hin; apply Hname; unfold spellings; simpl in *; tauto. }
  split; [|exact Hraise].
  intros o Ho.
  destruct (get_optimizer_ok_inv _ _ _ _ _ o Ho) as (a & s & r & Ha & Hs & Hr).
  rewrite (Hraise a s r Ha Hs Hr) in Ho. discriminate.
Qed.

(** C5, as the code has it.  Matching is by exact spelling.  When the three
    constructors accept the hyperparameters, "adam" and "Adam" give the Adam
    optimizer built from them, "sgd" and "SGD" the SGD one, "rmsprop",
    "RMSprop" and "RMSProp" the RMSprop one; any other spelling, another
    casing of these included, raises [NotImplementedError]. *)
Theorem listed_spellings_resolve_to_their_family (params : Params) (name : string)
    (learning_rate weight_decay momentum : option float)
    (adam sgd rmsprop : Optimizer) :
  Adam params learning_rate weight_decay = Ok adam ->
  SGD params learning_rate momentum weight_decay = Ok sgd ->
  RMSprop params learning_rate weight_decay momentum = Ok rmsprop ->
  (In name ["adam"; "Adam"] ->
     get_optimizer params (Some name) learning_rate weight_decay momentum = Ok adam) /\
  (In name ["sgd"; "SGD"] ->
     get_optimizer params (Some name) learning_rate weight_decay momentum = Ok sgd) /\
  (In name ["rmsprop"; "RMSprop"; "RMSProp"] ->
     get_optimizer params (Some name) learning_rate weight_decay momentum = Ok rmsprop) /\
  (~ In name spellings ->
     get_optimizer params (Some name) learning_rate weight_decay momentum =
     Raise (NotImplementedError not_implemented_msg)).
Proof.
  intros Ha Hs Hr.
  rewrite (get_optimizer_built _ _ _ _ _ adam sgd rmsprop Ha Hs Hr).
  repeat split.
  - intros Hin. apply py_in_In in Hin. rewrite Hin. reflexivity.
  - intros Hin. simpl in Hin.
    destruct Hin as [<-|[<-|[]]]; reflexivity.
  - intros Hin. simpl in Hin.
    destruct Hin as [<-|[<-|[<-|[]]]]; reflexivity.
  - intros Hname.
    rewrite !py_in_not_In; [reflexivity | | |];
      intros Hin; apply Hname; unfold spellings; simpl in *; tauto.
Qed.

End ResolverFacts.

(** ** The loop *)

Section LoopFacts.
Context `{C : Collaborators}.

Lemma values_of_app (ph : Phase) (q : Quantity) (t1 t2 : list Event) :
  values_of ph q (t1 ++ t2) = values_of ph q t1 ++ values_of ph q t2.
Proof. apply flat_map_app. Qed.

Lemma logged_metrics_app (t1 t2 : list Event) :
  logged_metrics (t1 ++ t2) = logged_metrics t1 ++ logged_metrics t2.
Proof. apply flat_map_app. Qed.

Lemma forward_calls_app (t1 t2 : list Event) :
  forward_calls (t1 ++ t2) = forward_calls t1 ++ forward_calls t2.
Proof. apply flat_map_app. Qed.

Lemma saved_app (t1 t2 : list Event) : saved (t1 ++ t2) = saved t1 ++ saved t2.
Proof. apply flat_map_app. Qed.

(** One training step: two events, the loss added to the total, the mode
    flag and the grad mode untouched. *)
Lemma train_batch_spec (criterion : Output -> Labels -> Loss) (device : Device)
    (w : World) (total : float) (lab : option Labels) (batch : Images * Labels) :
  exists v w' lab',
    train_batch criterion device (w, total, lab) batch = (w', fadd total v, Some lab') /\
    w_trace w' = w_trace w ++ train_events (w_mode w) (w_grad_enabled w) [v] /\
    w_mode w' = w_mode w /\
    w_grad_enabled w' = w_grad_enabled w.
Proof.
  unfold train_batch, emit, set_params, set_optimizer.
  cbn [w_mode w_params w_optimizer w_grad_enabled w_trace].
  eexists _, _, _. split; [reflexivity|].
  cbn [w_trace w_mode w_grad_enabled train_events flat_map app].
  rewrite <- app_assoc. repeat split.
Qed.

Lemma train_events_app (m : Mode) (g : bool) (l1 l2 : list float) :
  train_events m g (l1 ++ l2) = train_events m g l1 ++ train_events m g l2.
Proof. apply flat_map_app. Qed.

Lemma val_events_app (m : Mode) (g : bool) (l1 l2 : list BatchValues) :
  val_events m g (l1 ++ l2) = val_events m g l1 ++ val_events m g l2.
Proof. apply flat_map_app. Qed.

(** Phase T over a loader. *)
Lemma train_phase_spec (criterion : Output -> Labels -> Loss) (device : Device)
    (batches : list (Images * Labels)) :
  forall (w : World) (total : float) (lab : option Labels),
  exists losses w' lab',
    fold_left (train_batch criterion device) batches (w, total, lab) =
      (w', fold_left fadd losses total, lab') /\
    length losses = length batches /\
    w_trace w' = w_trace w ++ train_events (w_mode w) (w_grad_enabled w) losses /\
    w_mode w' = w_mode w /\
    w_grad_enabled w' = w_grad_enabled w.
Proof.
  induction batches as [|b bs IH]; intros w total lab.
  - exists [], w, lab. cbn. rewrite app_nil_r. repeat split.
  - destruct (train_batch_spec criterion device w total lab b)
      as (v & w1 & l1 & Hstep & Htr & Hm & Hg).
    destruct (IH w1 (fadd total v) (Some l1)) as (ls & w2 & l2 & Hfold & Hlen & Htr2 & Hm2 & Hg2).
    exists (v :: ls), w2, l2. cbn [fold_left]. rewrite Hstep, Hfold.
    split; [reflexivity|]. split; [cbn; lia|].
    rewrite Htr2, Htr, Hm, Hg, Hm2, Hg2, Hm, Hg, <- app_assoc.
    change (v :: ls) with ([v] ++ ls). rewrite train_events_app. repeat split.
Qed.

(** One validation step: five events, four totals advanced, nothing else
    changed. *)
Lemma val_batch_spec (criterion : Output -> Labels -> Loss) (device : Device)
    (w : World) (totals : ValTotals) (lab : option Labels) (pr : option Preds)
    (batch : Images * Labels) :
  exists r w' y p,
    val_batch criterion device (w, totals, lab, pr) batch =
      (w', add_values totals r, Some y, Some p) /\
    w_trace w' = w_trace w ++ val_events (w_mode w) (w_grad_enabled w) [r] /\
    w_mode w' = w_mode w /\
    w_grad_enabled w' = w_grad_enabled w.
Proof.
  unfold val_batch, emit.
  cbn [w_mode w_params w_optimizer w_grad_enabled w_trace].
  set (labels := labels_to device (snd batch)).
  set (output := forward (w_mode w) (w_grad_enabled w) (w_params w)
                   (images_to device (fst batch))).
  exists {| b_loss := item (criterion output labels);
            b_recall := recall (predictions_of output) labels;
            b_accuracy := accuracy (predictions_of output) labels;
            b_precision := precision (predictions_of output) labels |}.
  eexists _, _, _. split; [reflexivity|].
  cbn [w_trace w_mode w_grad_enabled val_events flat_map app
       b_loss b_recall b_accuracy b_precision].
  rewrite <- !app_assoc. repeat split.
Qed.

(** Phase V over a loader. *)
Lemma val_phase_spec (criterion : Output -> Labels -> Loss) (device : Device)
    (batches : list (Images * Labels)) :
  forall (w : World) (totals : ValTotals) (lab : option Labels) (pr : option Preds),
  exists rows w' lab' pr',
    fold_left (val_batch criterion device) batches (w, totals, lab, pr) =
      (w', fold_left add_values rows totals, lab', pr') /\
    length rows = length batches /\
    w_trace w' = w_trace w ++ val_events (w_mode w) (w_grad_enabled w) rows /\
    w_mode w' = w_mode w /\
    w_grad_enabled w' = w_grad_enabled w /\
    (batches <> [] -> exists y p, lab' = Some y /\ pr' = Some p).
Proof.
  induction batches as [|b bs IH]; intros w totals lab pr.
  - exists [], w, lab, pr. cbn. rewrite app_nil_r. repeat split. congruence.
  - destruct (val_batch_spec criterion device w totals lab pr b)
      as (r & w1 & y1 & p1 & Hstep & Htr & Hm & Hg).
    destruct (IH w1 (add_values totals r) (Some y1) (Some p1))
      as (rs & w2 & l2 & p2 & Hfold & Hlen & Htr2 & Hm2 & Hg2 & Hlast).
    exists (r :: rs), w2, l2, p2. cbn [fold_left]. rewrite Hstep, Hfold.
    split; [reflexivity|]. split; [cbn; lia|].
    split; [|split; [congruence|split; [congruence|]]].
    + rewrite Htr2, Htr, Hm, Hg, <- app_assoc.
      change (r :: rs) with ([r] ++ rs). rewrite val_events_app. reflexivity.
    + intros _. destruct bs as [|b' bs'].
      * cbn in Hfold. inversion Hfold; subst. eauto.
      * apply Hlast. discriminate.
Qed.

(** The four totals after a pass are the four sums. *)
Lemma fold_add_values (rows : list BatchValues) :
  forall totals : ValTotals,
    fold_left add_values rows totals =
    {| val_loss_total := fold_left fadd (map b_loss rows) (val_loss_total totals);
       val_recall_total := fold_left fadd (map b_recall rows) (val_recall_total totals);
       val_accuracy_total := fold_left fadd (map b_accuracy rows) (val_accuracy_total totals);
       val_precision_total :=
         fold_left fadd (map b_precision rows) (val_precision_total totals) |}.
Proof.
  induction rows as [|r rs IH]; intros totals.
  - destruct totals; reflexivity.
  - cbn [fold_left map]. rewrite IH. reflexivity.
Qed.

Lemma len_nonempty {A : Type} (l : list A) : l <> [] -> (len l =? 0) = false.
Proof.
  intros H. destruct l; [congruence|]. unfold len. cbn [length].
  apply Z.eqb_neq. lia.
Qed.

Lemma py_truediv_nonempty {A : Type} (x : float) (l : list A) :
  l <> [] -> py_truediv x (len l) = Ok (fdiv x (len l)).
Proof. intros H. unfold py_truediv. rewrite (len_nonempty l H). reflexivity. Qed.

(** A whole epoch on non-empty loaders: it completes, leaves the model in
    evaluation mode and the grad mode as it found it, and makes exactly the
    calls of [epoch_events]. *)
Lemma run_epoch_spec (criterion : Output -> Labels -> Loss) (device : Device)
    (train_loader : list (Images * Labels)) (batch_size epoch : Z)
    (loc : Locals) (w : World) :
  train_loader <> [] ->
  make_dataset VAL_DATA_DIR batch_size <> [] ->
  exists er w',
    run_epoch criterion device train_loader (len train_loader) batch_size epoch loc w =
      (Ok {| l_labels := Some (er_y_true er);
             l_predictions := Some (er_y_predicted er);
             l_averages :=
               Some (averages_of (er_rows er) (len (make_dataset VAL_DATA_DIR batch_size))) |},
       w') /\
    length (er_losses er) = length train_loader /\
    length (er_rows er) = length (make_dataset VAL_DATA_DIR batch_size) /\
    w_trace w' = w_trace w ++
      epoch_events (w_grad_enabled w) (len train_loader)
        (len (make_dataset VAL_DATA_DIR batch_size)) epoch er /\
    w_mode w' = Evaluation /\
    w_grad_enabled w' = w_grad_enabled w.
Proof.
  intros Htrain Hval. unfold run_epoch.
  destruct (train_phase_spec criterion device train_loader (set_mode Training w)
              fzero (l_labels loc))
    as (losses & w1 & lab1 & Hfold & Hlen & Htr & Hm & Hg).
  rewrite Hfold. rewrite (py_truediv_nonempty _ _ Htrain).
  destruct (val_phase_spec criterion device (make_dataset VAL_DATA_DIR batch_size)
              (set_grad_enabled false (set_mode Evaluation w1)) zero_totals lab1
              (l_predictions loc))
    as (rows & w2 & lab2 & pr2 & Hfold2 & Hlen2 & Htr2 & Hm2 & Hg2 & Hlast).
  rewrite Hfold2. rewrite (py_truediv_nonempty _ _ Hval).
  destruct (Hlast Hval) as (y & p & -> & ->).
  exists {| er_losses := losses; er_rows := rows; er_y_true := y; er_y_predicted := p |}.
  eexists. split.
  - rewrite fold_add_values. cbn [val_loss_total val_recall_total val_accuracy_total
      val_precision_total zero_totals er_y_true er_y_predicted er_rows].
    reflexivity.
  - cbn [er_losses er_rows er_y_true er_y_predicted].
    split; [exact Hlen|]. split; [exact Hlen2|].
    unfold emit, set_grad_enabled, set_mode in *.
    cbn [w_trace w_mode w_grad_enabled w_params w_optimizer] in *.
    split; [|split; [exact Hm2 | exact Hg]].
    rewrite Htr2, Htr. unfold epoch_events, metrics_of.
    cbn [val_loss_total val_recall_total val_accuracy_total val_precision_total
         zero_totals er_losses er_rows er_y_true er_y_predicted
         val_loss_avg val_recall_avg val_accuracy_avg val_precision_avg].
    rewrite <- !app_assoc. reflexivity.
Qed.

(** *** What the observers read in the events of an epoch *)

Lemma values_of_train_events (ph : Phase) (q : Quantity) (m : Mode) (g : bool)
    (losses : list float) :
  values_of ph q (train_events m g losses) =
  if phase_eqb ph PhaseT && quantity_eqb q QLoss then losses else [].
Proof.
  induction losses as [|v vs IH].
  - destruct (phase_eqb ph PhaseT && quantity_eqb q QLoss); reflexivity.
  - change (train_events m g (v :: vs))
      with ([EvForward PhaseT m g; EvValue PhaseT QLoss v] ++ train_events m g vs).
    rewrite values_of_app, IH. cbn.
    destruct (phase_eqb ph PhaseT && quantity_eqb q QLoss); reflexivity.
Qed.

Lemma values_of_val_events (ph : Phase) (q : Quantity) (m : Mode) (g : bool)
    (rows : list BatchValues) :
  values_of ph q (val_events m g rows) =
  if phase_eqb ph PhaseV then map (pick q) rows else [].
Proof.
  induction rows as [|r rs IH].
  - destruct (phase_eqb ph PhaseV); reflexivity.
  - change (val_events m g (r :: rs)) with (val_events m g [r] ++ val_events m g rs).
    rewrite values_of_app, IH.
    destruct ph, q; reflexivity.
Qed.

Lemma logged_metrics_train_events (m : Mode) (g : bool) (losses : list float) :
  logged_metrics (train_events m g losses) = [].
Proof. induction losses as [|v vs IH]; [reflexivity | exact IH]. Qed.

Lemma logged_metrics_val_events (m : Mode) (g : bool) (rows : list BatchValues) :
  logged_metrics (val_events m g rows) = [].
Proof. induction rows as [|r rs IH]; [reflexivity | exact IH]. Qed.

Lemma saved_train_events (m : Mode) (g : bool) (losses : list float) :
  saved (train_events m g losses) = [].
Proof. induction losses as [|v vs IH]; [reflexivity | exact IH]. Qed.

Lemma saved_val_events (m : Mode) (g : bool) (rows : list BatchValues) :
  saved (val_events m g rows) = [].
Proof. induction rows as [|r rs IH]; [reflexivity | exact IH]. Qed.

Lemma forward_calls_train_events (m : Mode) (g : bool) (losses : list float) :
  forward_calls (train_events m g losses) = repeat (PhaseT, m, g) (length losses).
Proof.
  induction losses as [|v vs IH]; [reflexivity|].
  cbn [length repeat]. rewrite <- IH. reflexivity.
Qed.

Lemma forward_calls_val_events (m : Mode) (g : bool) (rows : list BatchValues) :
  forward_calls (val_events m g rows) = repeat (PhaseV, m, g) (length rows).
Proof.
  induction rows as [|r rs IH]; [reflexivity|].
  cbn [length repeat]. rewrite <- IH. reflexivity.
Qed.

Lemma values_of_epoch_events_train (g : bool) (N M e : Z) (er : EpochRun) :
  values_of PhaseT QLoss (epoch_events g N M e er) = er_losses er.
Proof.
  unfold epoch_events.
  rewrite !values_of_app, values_of_train_events, values_of_val_events.
  cbn. apply app_nil_r.
Qed.

Lemma values_of_epoch_events_val (g : bool) (N M e : Z) (er : EpochRun) (q : Quantity) :
  values_of PhaseV q (epoch_events g N M e er) = map (pick q) (er_rows er).
Proof.
  unfold epoch_events.
  rewrite !values_of_app, values_of_train_events, values_of_val_events.
  cbn. apply app_nil_r.
Qed.

Lemma logged_metrics_epoch_events (g : bool) (N M e : Z) (er : EpochRun) :
  logged_metrics (epoch_events g N M e er) =
  [metrics_of e (er_losses er) N (er_rows er) M].
Proof.
  unfold epoch_events.
  rewrite !logged_metrics_app, logged_metrics_train_events, logged_metrics_val_events.
  reflexivity.
Qed.

Lemma saved_epoch_events (g : bool) (N M e : Z) (er : EpochRun) :
  saved (epoch_events g N M e er) = [].
Proof.
  unfold epoch_events.
  rewrite !saved_app, saved_train_events, saved_val_events. reflexivity.
Qed.

Lemma forward_calls_epoch_events (g : bool) (N M e : Z) (er : EpochRun) :
  forward_calls (epoch_events g N M e er) =
  repeat (PhaseT, Training, g) (length (er_losses er)) ++
  repeat (PhaseV, Evaluation, false) (length (er_rows er)).
Proof.
  unfold epoch_events.
  rewrite !forward_calls_app, forward_calls_train_events, forward_calls_val_events.
  cbn. rewrite app_nil_r. reflexivity.
Qed.

(** *** The epoch loop *)

Lemma run_epochs_app (criterion : Output -> Labels -> Loss) (device : Device)
    (train_loader : list (Images * Labels)) (train_len batch_size : Z)
    (l1 l2 : list Z) :
  forall (loc : Locals) (w : World),
  run_epochs criterion device train_loader train_len batch_size (l1 ++ l2) loc w =
  match run_epochs criterion device train_loader train_len batch_size l1 loc w with
  | (Ok loc1, w1) =>
    run_epochs criterion device train_loader train_len batch_size l2 loc1 w1
  | (Raise e, w1) => (Raise e, w1)
  end.
Proof.
  induction l1 as [|e es IH]; intros loc w; [reflexivity|].
  cbn [app run_epochs].
  destruct (run_epoch criterion device train_loader train_len batch_size e loc w)
    as [[loc1|err] w1]; [apply IH | reflexivity].
Qed.

(** On non-empty loaders every epoch of the list completes; the trace grows
    by one segment per epoch. *)
Lemma run_epochs_spec (criterion : Output -> Labels -> Loss) (device : Device)
    (train_loader : list (Images * Labels)) (batch_size : Z) :
  train_loader <> [] ->
  make_dataset VAL_DATA_DIR batch_size <> [] ->
  forall (epochs : list Z) (loc : Locals) (w : World),
  exists segs loc' w',
    run_epochs criterion device train_loader (len train_loader) batch_size epochs loc w =
      (Ok loc', w') /\
    Forall2 (epoch_segment (w_grad_enabled w) (length train_loader)
               (length (make_dataset VAL_DATA_DIR batch_size))) epochs segs /\
    w_trace w' = w_trace w ++ concat segs /\
    w_grad_enabled w' = w_grad_enabled w /\
    w_mode w' = match epochs with [] => w_mode w | _ :: _ => Evaluation end.
Proof.
  intros Htrain Hval. induction epochs as [|e es IH]; intros loc w.
  - exists [], loc, w. cbn. rewrite app_nil_r. repeat split. constructor.
  - destruct (run_epoch_spec criterion device train_loader batch_size e loc w Htrain Hval)
      as (er & w1 & Hrun & Hl1 & Hl2 & Htr & Hm & Hg).
    cbn [run_epochs]. rewrite Hrun.
    match goal with
    | |- context [run_epochs _ _ _ _ _ es ?l w1] =>
      destruct (IH l w1) as (segs & loc' & w' & Hrest & Hsegs & Htr' & Hg' & Hm')
    end.
    exists (epoch_events (w_grad_enabled w) (len train_loader)
              (len (make_dataset VAL_DATA_DIR batch_size)) e er :: segs), loc', w'.
    split; [exact Hrest|]. split.
    + constructor.
      * exists er. repeat split; assumption.
      * rewrite Hg in Hsegs. exact Hsegs.
    + split; [|split].
      * rewrite Htr', Htr. cbn [concat]. rewrite <- app_assoc. reflexivity.
      * congruence.
      * rewrite Hm'. destruct es; [exact Hm | reflexivity].
Qed.

Lemma range_pos (n : Z) : 0 < n -> range n = range (n - 1) ++ [n - 1].
Proof.
  intros H. unfold range.
  replace (Z.to_nat n) with (S (Z.to_nat (n - 1))) by lia.
  rewrite seq_S, map_app. cbn. f_equal. f_equal. lia.
Qed.

Lemma range_length (n : Z) : length (range n) = Z.to_nat n.
Proof. unfold range. rewrite length_map, length_seq. reflexivity. Qed.

Lemma range_cons (n : Z) : 0 < n -> exists rest, range n = 0 :: rest.
Proof.
  intros H. unfold range.
  replace (Z.to_nat n) with (S (Z.to_nat (n - 1))) by lia.
  cbn [seq map]. eexists. reflexivity.
Qed.

(** What the observers read in a list of epoch segments. *)
Lemma segments_observed (g : bool) (n_train n_val : nat) (epochs : list Z)
    (segs : list (list Event)) :
  Forall2 (epoch_segment g n_train n_val) epochs segs ->
  saved (concat segs) = [] /\
  map Epoch (logged_metrics (concat segs)) = epochs /\
  length segs = length epochs.
Proof.
  induction 1 as [|e seg es segs' (er & _ & _ & ->) _ (IHs & IHl & IHn)].
  - repeat split.
  - cbn [concat]. rewrite saved_app, logged_metrics_app, map_app.
    rewrite saved_epoch_events, logged_metrics_epoch_events, IHs, IHl.
    cbn. rewrite IHn. repeat split.
Qed.

(** A completed run: every epoch but the last, the last epoch, then the
    write if [save] is set. *)
Lemma run_training_loop_spec (w : World) (criterion : Output -> Labels -> Loss)
    (save : bool) (num_epochs batch_size : Z) :
  make_dataset TRAIN_DATA_DIR batch_size <> [] ->
  make_dataset VAL_DATA_DIR batch_size <> [] ->
  0 < num_epochs ->
  exists segs er w',
    run_training_loop w criterion save num_epochs batch_size =
      (Ok [val_loss_avg (averages_of (er_rows er) (len (make_dataset VAL_DATA_DIR batch_size)));
           val_accuracy_avg (averages_of (er_rows er) (len (make_dataset VAL_DATA_DIR batch_size)));
           val_loss_avg (averages_of (er_rows er) (len (make_dataset VAL_DATA_DIR batch_size)));
           val_precision_avg (averages_of (er_rows er) (len (make_dataset VAL_DATA_DIR batch_size)))],
       if save then emit (EvTorchSave (state_dict (w_params w')) MODELS_DIR) w' else w') /\
    Forall2 (epoch_segment (w_grad_enabled w)
               (length (make_dataset TRAIN_DATA_DIR batch_size))
               (length (make_dataset VAL_DATA_DIR batch_size)))
      (range (num_epochs - 1)) segs /\
    length (er_losses er) = length (make_dataset TRAIN_DATA_DIR batch_size) /\
    length (er_rows er) = length (make_dataset VAL_DATA_DIR batch_size) /\
    w_trace w' = w_trace w ++ concat segs ++
      epoch_events (w_grad_enabled w) (len (make_dataset TRAIN_DATA_DIR batch_size))
        (len (make_dataset VAL_DATA_DIR batch_size)) (num_epochs - 1) er /\
    w_mode w' = Evaluation /\
    w_grad_enabled w' = w_grad_enabled w.
Proof.
  intros Htrain Hval Hn. unfold run_training_loop.
  set (device := if cuda_is_available then Cuda else Cpu).
  set (w0 := set_params (params_to device (w_params w)) w).
  rewrite (range_pos num_epochs Hn), run_epochs_app.
  destruct (run_epochs_spec criterion device _ batch_size Htrain Hval
              (range (num_epochs - 1)) no_locals w0)
    as (segs & loc1 & w1 & Hrun & Hsegs & Htr & Hg & _).
  rewrite Hrun. cbn [run_epochs].
  destruct (run_epoch_spec criterion device _ batch_size (num_epochs - 1) loc1 w1
              Htrain Hval)
    as (er & w2 & Hlast & Hl1 & Hl2 & Htr2 & Hm2 & Hg2).
  rewrite Hlast. cbn [l_averages].
  exists segs, er, w2. split; [reflexivity|].
  split; [exact Hsegs|]. split; [exact Hl1|]. split; [exact Hl2|].
  split; [|split; [exact Hm2 | rewrite Hg2, Hg; reflexivity]].
  rewrite Htr2, Htr, Hg. subst w0. cbn [set_params w_trace w_grad_enabled].
  rewrite <- app_assoc. reflexivity.
Qed.

(** Any run on non-empty loaders, whatever the number of epochs: one segment
    per epoch, then at most the write. *)
Lemma run_training_loop_trace (w : World) (criterion : Output -> Labels -> Loss)
    (save : bool) (num_epochs batch_size : Z) :
  make_dataset TRAIN_DATA_DIR batch_size <> [] ->
  make_dataset VAL_DATA_DIR batch_size <> [] ->
  exists segs tail,
    w_trace (snd (run_training_loop w criterion save num_epochs batch_size)) =
      w_trace w ++ concat segs ++ tail /\
    Forall2 (epoch_segment (w_grad_enabled w)
               (length (make_dataset TRAIN_DATA_DIR batch_size))
               (length (make_dataset VAL_DATA_DIR batch_size)))
      (range num_epochs) segs /\
    (tail = [] \/ exists blob path, tail = [EvTorchSave blob path]) /\
    w_mode (snd (run_training_loop w criterion save num_epochs batch_size)) =
      match range num_epochs with [] => w_mode w | _ :: _ => Evaluation end /\
    w_grad_enabled (snd (run_training_loop w criterion save num_epochs batch_size)) =
      w_grad_enabled w.
Proof.
  intros Htrain Hval. unfold run_training_loop.
  set (device := if cuda_is_available then Cuda else Cpu).
  set (w0 := set_params (params_to device (w_params w)) w).
  destruct (run_epochs_spec criterion device _ batch_size Htrain Hval
              (range num_epochs) no_locals w0)
    as (segs & loc1 & w1 & Hrun & Hsegs & Htr & Hg & Hm).
  rewrite Hrun. exists segs.
  destruct save.
  - exists [EvTorchSave (state_dict (w_params w1)) MODELS_DIR].
    destruct (l_averages loc1); cbn [snd emit w_trace w_mode w_grad_enabled];
      (split; [rewrite Htr, <- app_assoc; reflexivity|]);
      (split; [exact Hsegs|]); (split; [right; eauto|]);
      (split; [exact Hm | exact Hg]).
  - exists [].
    destruct (l_averages loc1); cbn [snd];
      (split; [rewrite Htr, app_nil_r; reflexivity|]);
      (split; [exact Hsegs|]); (split; [left; reflexivity|]);
      (split; [exact Hm | exact Hg]).
Qed.

(** A run of no epoch: the write, if asked for, then the unbound name. *)
Lemma run_training_loop_no_epoch (w : World) (criterion : Output -> Labels -> Loss)
    (save : bool) (num_epochs batch_size : Z) :
  num_epochs <= 0 ->
  exists tail,
    fst (run_training_loop w criterion save num_epochs batch_size) =
      Raise (UnboundLocalError "val_loss_avg") /\
    w_trace (snd (run_training_loop w criterion save num_epochs batch_size)) =
      w_trace w ++ tail /\
    forward_calls tail = [] /\
    (save = false -> tail = []).
Proof.
  intros Hn. unfold run_training_loop, range.
  replace (Z.to_nat num_epochs) with 0%nat by lia.
  cbn [seq map run_epochs no_locals l_averages].
  destruct save.
  - eexists [_]. cbn. repeat split. discriminate.
  - exists []. cbn. rewrite app_nil_r. repeat split.
Qed.

(** A run of at least one epoch on an empty loader stops in its first
    epoch, at the division; it has made the training passes at most. *)
Lemma run_training_loop_empty (w : World) (criterion : Output -> Labels -> Loss)
    (save : bool) (num_epochs batch_size : Z) :
  0 < num_epochs ->
  make_dataset TRAIN_DATA_DIR batch_size = [] \/
  make_dataset VAL_DATA_DIR batch_size = [] ->
  exists losses,
    fst (run_training_loop w criterion save num_epochs batch_size) =
      Raise ZeroDivisionError /\
    w_trace (snd (run_training_loop w criterion save num_epochs batch_size)) =
      w_trace w ++ train_events Training (w_grad_enabled w) losses.
Proof.
  intros Hn Hempty. unfold run_training_loop.
  set (device := if cuda_is_available then Cuda else Cpu).
  set (w0 := set_params (params_to device (w_params w)) w).
  destruct (range_cons num_epochs Hn) as [rest ->]. cbn [run_epochs].
  destruct (list_eq_nil_dec (make_dataset TRAIN_DATA_DIR batch_size)) as [Htrain|Htrain].
  - unfold run_epoch. rewrite Htrain. cbn [fold_left len length py_truediv Z.of_nat Z.eqb].
    exists []. cbn. rewrite app_nil_r. repeat split.
  - destruct Hempty as [Hempty|Hval]; [contradiction|].
    unfold run_epoch.
    destruct (train_phase_spec criterion device (make_dataset TRAIN_DATA_DIR batch_size)
                (set_mode Training w0) fzero (l_labels no_locals))
      as (losses & w1 & lab1 & Hfold & Hlen & Htr & Hm & Hg).
    rewrite Hfold, (py_truediv_nonempty _ _ Htrain), Hval.
    cbn [fold_left len length py_truediv Z.of_nat Z.eqb zero_totals val_loss_total].
    exists losses.
    cbn [fst snd set_grad_enabled set_mode w_trace].
    split; [reflexivity | exact Htr].
Qed.

Lemma Forall_repeat {A : Type} (P : A -> Prop) (x : A) (n : nat) :
  P x -> Forall P (repeat x n).
Proof. intros H. induction n; cbn; constructor; assumption. Qed.

Lemma segments_forward_calls (g : bool) (n_train n_val : nat) (epochs : list Z)
    (segs : list (list Event)) :
  Forall2 (epoch_segment g n_train n_val) epochs segs ->
  Forall mode_fits_phase (forward_calls (concat segs)).
Proof.
  induction 1 as [|e seg es segs' (er & _ & _ & ->) _ IH]; [constructor|].
  cbn [concat]. rewrite forward_calls_app, forward_calls_epoch_events.
  rewrite !Forall_app. repeat split; try exact IH; apply Forall_repeat; cbn; auto.
Qed.


Lemma segments_forward_calls_in_order (g : bool) (n_train n_val : nat)
    (epochs : list Z) (segs : list (list Event)) :
  Forall2 (epoch_segment g n_train n_val) epochs segs ->
  Forall (fun seg =>
    forward_calls seg =
      repeat (PhaseT, Training, g) n_train ++ repeat (PhaseV, Evaluation, false) n_val)
    segs.
Proof.
  induction 1 as [|e seg es segs' (er & Hl1 & Hl2 & ->) _ IH].
  - constructor.
  - constructor; [|exact IH].
    rewrite forward_calls_epoch_events, Hl1, Hl2. reflexivity.
Qed.

(** C1.  On loaders of N >= 1 training batches and M >= 1 validation
    batches, the calls of a run split into one segment per epoch; in the
    segment of an epoch N training losses and M values of each validation
    quantity are obtained, and the one record reported for the epoch holds
    the sum of the training losses divided by N and, for the validation
    loss, accuracy, recall and precision, the sum of the per-batch values
    divided by M: the divisors are the numbers of batches. *)
Theorem epoch_averages_divide_batch_sums_by_batch_counts (w : World)
    (criterion : Output -> Labels -> Loss) (save : bool) (num_epochs batch_size : Z) :
  make_dataset TRAIN_DATA_DIR batch_size <> [] ->
  make_dataset VAL_DATA_DIR batch_size <> [] ->
  exists segs tail,
    w_trace (snd (run_training_loop w criterion save num_epochs batch_size)) =
      w_trace w ++ concat segs ++ tail /\
    logged_metrics tail = [] /\
    Forall2 (fun epoch seg =>
      length (values_of PhaseT QLoss seg) = length (make_dataset TRAIN_DATA_DIR batch_size) /\
      (forall q, length (values_of PhaseV q seg) =
                 length (make_dataset VAL_DATA_DIR batch_size)) /\
      logged_metrics seg =
        [ {| Epoch := epoch;
             Average_Training_Loss :=
               fdiv (fsum (values_of PhaseT QLoss seg))
                    (len (make_dataset TRAIN_DATA_DIR batch_size));
             Average_Validation_loss :=
               fdiv (fsum (values_of PhaseV QLoss seg))
                    (len (make_dataset VAL_DATA_DIR batch_size));
             Average_Validation_Accuracy :=
               fdiv (fsum (values_of PhaseV QAccuracy seg))
                    (len (make_dataset VAL_DATA_DIR batch_size));
             Average_Validation_Recall :=
               fdiv (fsum (values_of PhaseV QRecall seg))
                    (len (make_dataset VAL_DATA_DIR batch_size));
             Average_Validation_Precision :=
               fdiv (fsum (values_of PhaseV QPrecision seg))
                    (len (make_dataset VAL_DATA_DIR batch_size)) |} ])
      (range num_epochs) segs.
Proof.
  intros Htrain Hval.
  destruct (run_training_loop_trace w criterion save num_epochs batch_size Htrain Hval)
    as (segs & tail & Htr & Hsegs & Htail & _ & _).
  exists segs, tail. split; [exact Htr|]. split.
  - destruct Htail as [->|(b & p & ->)]; reflexivity.
  - clear Htr. induction Hsegs as [|e seg es segs' (er & Hl1 & Hl2 & ->) _ IH];
      constructor; [|exact IH].
    rewrite values_of_epoch_events_train, logged_metrics_epoch_events.
    split; [exact Hl1|]. split.
    + intros q. rewrite values_of_epoch_events_val, length_map. exact Hl2.
    + rewrite !values_of_epoch_events_val. reflexivity.
Qed.

(** C6.  In every run, each forward pass of phase T runs with the model in
    training mode and each forward pass of phase V with the model in
    evaluation mode and gradients disabled.  On non-empty loaders the calls
    split into one segment per epoch, the passes of phase T first, then
    those of phase V, so an epoch that follows another starts phase T back
    in training mode; after the last epoch the model is in evaluation mode,
    and the grad mode is what it was before the run. *)
Theorem model_mode_follows_the_phase (w : World)
    (criterion : Output -> Labels -> Loss) (save : bool) (num_epochs batch_size : Z) :
  (exists new,
     w_trace (snd (run_training_loop w criterion save num_epochs batch_size)) =
       w_trace w ++ new /\
     Forall mode_fits_phase (forward_calls new)) /\
  (make_dataset TRAIN_DATA_DIR batch_size <> [] ->
   make_dataset VAL_DATA_DIR batch_size <> [] ->
   exists segs tail,
     w_trace (snd (run_training_loop w criterion save num_epochs batch_size)) =
       w_trace w ++ concat segs ++ tail /\
     forward_calls tail = [] /\
     length segs = Z.to_nat num_epochs /\
     Forall (fun seg =>
       forward_calls seg =
         repeat (PhaseT, Training, w_grad_enabled w)
           (length (make_dataset TRAIN_DATA_DIR batch_size)) ++
         repeat (PhaseV, Evaluation, false)
           (length (make_dataset VAL_DATA_DIR batch_size))) segs /\
     (0 < num_epochs ->
      w_mode (snd (run_training_loop w criterion save num_epochs batch_size)) = Evaluation) /\
     w_grad_enabled (snd (run_training_loop w criterion save num_epochs batch_size)) =
       w_grad_enabled w).
Proof.
  assert (Hfull :
    make_dataset TRAIN_DATA_DIR batch_size <> [] ->
    make_dataset VAL_DATA_DIR batch_size <> [] ->
    exists segs tail,
      w_trace (snd (run_training_loop w criterion save num_epochs batch_size)) =
        w_trace w ++ concat segs ++ tail /\
      forward_calls tail = [] /\
      Forall2 (epoch_segment (w_grad_enabled w)
                 (length (make_dataset TRAIN_DATA_DIR batch_size))
                 (length (make_dataset VAL_DATA_DIR batch_size)))
        (range num_epochs) segs /\
      w_mode (snd (run_training_loop w criterion save num_epochs batch_size)) =
        match range num_epochs with [] => w_mode w | _ :: _ => Evaluation end /\
      w_grad_enabled (snd (run_training_loop w criterion save num_epochs batch_size)) =
        w_grad_enabled w).
  { intros Htrain Hval.
    destruct (run_training_loop_trace w criterion save num_epochs batch_size Htrain Hval)
      as (segs & tail & Htr & Hsegs & Htail & Hm & Hg).
    exists segs, tail. repeat split; try assumption.
    destruct Htail as [->|(b & p & ->)]; reflexivity. }
  split.
  - destruct (list_eq_nil_dec (make_dataset TRAIN_DATA_DIR batch_size)) as [Htrain|Htrain];
      [|destruct (list_eq_nil_dec (make_dataset VAL_DATA_DIR batch_size)) as [Hval|Hval]].
    3: { destruct (Hfull Htrain Hval) as (segs & tail & Htr & Htail & Hsegs & _).
         exists (concat segs ++ tail). split; [exact Htr|].
         rewrite forward_calls_app, Htail, app_nil_r.
         exact (segments_forward_calls _ _ _ _ _ Hsegs). }
    all: destruct (Z_lt_le_dec 0 num_epochs) as [Hn|Hn].
    all: try (destruct (run_training_loop_no_epoch w criterion save num_epochs batch_size Hn)
                as (tail & _ & Htr & Htail & _);
              exists tail; split; [exact Htr | rewrite Htail; constructor]).
    + destruct (run_training_loop_empty w criterion save num_epochs batch_size Hn
                  (or_introl Htrain)) as (losses & _ & Htr).
      eexists. split; [exact Htr|].
      rewrite forward_calls_train_events. apply Forall_repeat. reflexivity.
    + destruct (run_training_loop_empty w criterion save num_epochs batch_size Hn
                  (or_intror Hval)) as (losses & _ & Htr).
      eexists. split; [exact Htr|].
      rewrite forward_calls_train_events. apply Forall_repeat. reflexivity.
  - intros Htrain Hval.
    destruct (Hfull Htrain Hval) as (segs & tail & Htr & Htail & Hsegs & Hm & Hg).
    exists segs, tail. split; [exact Htr|]. split; [exact Htail|]. split.
    { destruct (segments_observed _ _ _ _ _ Hsegs) as (_ & _ & Hlen).
      rewrite Hlen. apply range_length. }
    split; [exact (segments_forward_calls_in_order _ _ _ _ _ Hsegs)|].
    split; [|exact Hg].
    intros Hn. rewrite Hm. destruct (range_cons num_epochs Hn) as [rest ->]. reflexivity.
Qed.

(** C7.  A run completes exactly when it has at least one epoch and both
    loaders are non-empty.  A run that completes returns four numbers taken
    from the record reported last, the one of the final epoch: its average
    validation loss, its average validation accuracy, its average validation
    loss once more, its average validation precision. *)
Theorem returns_loss_accuracy_loss_precision (w : World)
    (criterion : Output -> Labels -> Loss) (save : bool) (num_epochs batch_size : Z) :
  (is_ok (fst (run_training_loop w criterion save num_epochs batch_size)) = true <->
   0 < num_epochs /\
   make_dataset TRAIN_DATA_DIR batch_size <> [] /\
   make_dataset VAL_DATA_DIR batch_size <> []) /\
  (is_ok (fst (run_training_loop w criterion save num_epochs batch_size)) = true ->
   exists new earlier r,
     w_trace (snd (run_training_loop w criterion save num_epochs batch_size)) =
       w_trace w ++ new /\
     logged_metrics new = earlier ++ [r] /\
     Epoch r = num_epochs - 1 /\
     fst (run_training_loop w criterion save num_epochs batch_size) =
       Ok [Average_Validation_loss r; Average_Validation_Accuracy r;
           Average_Validation_loss r; Average_Validation_Precision r]).
Proof.
  assert (Hiff :
    is_ok (fst (run_training_loop w criterion save num_epochs batch_size)) = true <->
    0 < num_epochs /\
    make_dataset TRAIN_DATA_DIR batch_size <> [] /\
    make_dataset VAL_DATA_DIR batch_size <> []).
  { split.
    - intros Hok.
      destruct (Z_lt_le_dec 0 num_epochs) as [Hn|Hn].
      + split; [exact Hn|].
        destruct (list_eq_nil_dec (make_dataset TRAIN_DATA_DIR batch_size)) as [Htrain|Htrain].
        * destruct (run_training_loop_empty w criterion save num_epochs batch_size Hn
                      (or_introl Htrain)) as (losses & Hraise & _).
          rewrite Hraise in Hok. discriminate.
        * split; [exact Htrain|]. intros Hval.
          destruct (run_training_loop_empty w criterion save num_epochs batch_size Hn
                      (or_intror Hval)) as (losses & Hraise & _).
          rewrite Hraise in Hok. discriminate.
      + destruct (run_training_loop_no_epoch w criterion save num_epochs batch_size Hn)
          as (tail & Hraise & _).
        rewrite Hraise in Hok. discriminate.
    - intros (Hn & Htrain & Hval).
      destruct (run_training_loop_spec w criterion save num_epochs batch_size Htrain Hval Hn)
        as (segs & er & w' & Hrun & _).
      rewrite Hrun. reflexivity. }
  split; [exact Hiff|].
  intros Hok. apply Hiff in Hok. destruct Hok as (Hn & Htrain & Hval).
  destruct (run_training_loop_spec w criterion save num_epochs batch_size Htrain Hval Hn)
    as (segs & er & w' & Hrun & Hsegs & Hl1 & Hl2 & Htr & Hm & Hg).
  rewrite Hrun. cbn [fst snd].
  set (seg := epoch_events _ _ _ _ er) in Htr.
  exists (concat segs ++ seg ++ if save then [EvTorchSave (state_dict (w_params w')) MODELS_DIR]
                                else []),
    (logged_metrics (concat segs)),
    (metrics_of (num_epochs - 1) (er_losses er)
       (len (make_dataset TRAIN_DATA_DIR batch_size)) (er_rows er)
       (len (make_dataset VAL_DATA_DIR batch_size))).
  split.
  - destruct save; cbn [emit w_trace]; rewrite Htr.
    + rewrite <- !app_assoc. reflexivity.
    + rewrite app_nil_r. reflexivity.
  - split; [|split; reflexivity].
    rewrite !logged_metrics_app. subst seg. rewrite logged_metrics_epoch_events.
    destruct save; cbn; rewrite ?app_nil_r; reflexivity.
Qed.

(** C9.  Without [save] a run writes nothing.  With [save], a run of at
    least one epoch on non-empty loaders returns the same four numbers and
    makes the same calls as without, followed by one write, of the state of
    the parameters as the last epoch left them.  Every epoch has been
    reported before the write. *)
Theorem save_writes_once_after_the_last_epoch (w : World)
    (criterion : Output -> Labels -> Loss) (num_epochs batch_size : Z) :
  (exists new,
     w_trace (snd (run_training_loop w criterion false num_epochs batch_size)) =
       w_trace w ++ new /\
     saved new = []) /\
  (make_dataset TRAIN_DATA_DIR batch_size <> [] ->
   make_dataset VAL_DATA_DIR batch_size <> [] ->
   0 < num_epochs ->
   exists metrics new w0 w1,
     run_training_loop w criterion false num_epochs batch_size = (Ok metrics, w0) /\
     run_training_loop w criterion true num_epochs batch_size = (Ok metrics, w1) /\
     w_trace w0 = w_trace w ++ new /\
     w_trace w1 = w_trace w ++ new ++ [EvTorchSave (state_dict (w_params w1)) MODELS_DIR] /\
     w_params w1 = w_params w0 /\
     saved new = [] /\
     map Epoch (logged_metrics new) = range num_epochs).
Proof.
  assert (Hdone :
    make_dataset TRAIN_DATA_DIR batch_size <> [] ->
    make_dataset VAL_DATA_DIR batch_size <> [] ->
    0 < num_epochs ->
    exists metrics new w0 w1,
      run_training_loop w criterion false num_epochs batch_size = (Ok metrics, w0) /\
      run_training_loop w criterion true num_epochs batch_size = (Ok metrics, w1) /\
      w_trace w0 = w_trace w ++ new /\
      w_trace w1 = w_trace w ++ new ++ [EvTorchSave (state_dict (w_params w1)) MODELS_DIR] /\
      w_params w1 = w_params w0 /\
      saved new = [] /\
      map Epoch (logged_metrics new) = range num_epochs).
  { intros Htrain Hval Hn.
    destruct (run_training_loop_spec w criterion false num_epochs batch_size Htrain Hval Hn)
      as (segs & er & w' & Hrun & Hsegs & Hl1 & Hl2 & Htr & Hm & Hg).
    assert (Htrue : run_training_loop w criterion true num_epochs batch_size =
                    (fst (run_training_loop w criterion false num_epochs batch_size),
                     emit (EvTorchSave (state_dict (w_params w')) MODELS_DIR) w')).
    { revert Hrun. unfold run_training_loop.
      destruct (run_epochs _ _ _ _ _ _ _ _) as [[loc|e] w2].
      - destruct (l_averages loc); intros Hrun; inversion Hrun; subst; reflexivity.
      - discriminate. }
    rewrite Htrue, Hrun. cbn [fst].
    eexists _, _, w', _. split; [reflexivity|]. split; [reflexivity|].
    split; [exact Htr|]. cbn [emit w_trace w_params].
    split; [rewrite Htr, <- !app_assoc; reflexivity|].
    split; [reflexivity|].
    destruct (segments_observed _ _ _ _ _ Hsegs) as (Hs & Hlog & _).
    rewrite saved_app, logged_metrics_app, map_app, Hs, Hlog.
    rewrite saved_epoch_events, logged_metrics_epoch_events.
    split; [reflexivity|]. cbn. rewrite (range_pos num_epochs Hn). reflexivity. }
  split; [|exact Hdone].
  destruct (Z_lt_le_dec 0 num_epochs) as [Hn|Hn].
  - destruct (list_eq_nil_dec (make_dataset TRAIN_DATA_DIR batch_size)) as [Htrain|Htrain];
      [|destruct (list_eq_nil_dec (make_dataset VAL_DATA_DIR batch_size)) as [Hval|Hval]].
    + destruct (run_training_loop_empty w criterion false num_epochs batch_size Hn
                  (or_introl Htrain)) as (losses & _ & Htr).
      eexists. split; [exact Htr | apply saved_train_events].
    + destruct (run_training_loop_empty w criterion false num_epochs batch_size Hn
                  (or_intror Hval)) as (losses & _ & Htr).
      eexists. split; [exact Htr | apply saved_train_events].
    + destruct (Hdone Htrain Hval Hn) as (metrics & new & w0 & w1 & H0 & _ & Htr & _ & _ & Hs & _).
      exists new. rewrite H0. split; [exact Htr | exact Hs].
  - destruct (run_training_loop_no_epoch w criterion false num_epochs batch_size Hn)
      as (tail & _ & Htr & _ & Hnil).
    exists tail. split; [exact Htr|]. rewrite (Hnil eq_refl). reflexivity.
Qed.

(** C3.  When the training loader or the validation loader has no batch,
    a run of at least one epoch raises [ZeroDivisionError] (the crash the
    specification calls the empty-dataset error) in its first epoch, at the
    division by the number of batches; no record is reported and nothing is
    written. *)
Theorem empty_loader_raises_ZeroDivisionError (w : World)
    (criterion : Output -> Labels -> Loss) (save : bool) (num_epochs batch_size : Z) :
  0 < num_epochs ->
  make_dataset TRAIN_DATA_DIR batch_size = [] \/
  make_dataset VAL_DATA_DIR batch_size = [] ->
  exists new,
    fst (run_training_loop w criterion save num_epochs batch_size) =
      Raise ZeroDivisionError /\
    w_trace (snd (run_training_loop w criterion save num_epochs batch_size)) =
      w_trace w ++ new /\
    logged_metrics new = [] /\
    saved new = [].
Proof.
  intros Hn Hempty.
  destruct (run_training_loop_empty w criterion save num_epochs batch_size Hn Hempty)
    as (losses & Hraise & Htr).
  exists (train_events Training (w_grad_enabled w) losses).
  split; [exact Hraise|]. split; [exact Htr|].
  split; [apply logged_metrics_train_events | apply saved_train_events].
Qed.

End LoopFacts.

(** ** The entry point *)

Section EntryFacts.
Context `{C : Collaborators}.

(** The fourth condition of the if-chain holds for every name. *)
Lemma resnet_condition_always_true (model_name : string) :
  truthy_str "resnet" || truthy_str "Resnet" || contains "ResNet" model_name = true.
Proof. reflexivity. Qed.

(** C8, what the code does.  With tuning off, a name that is none of "base",
    "Base", "dynamic", "Dynamic", "bigger", "Bigger" is handed to
    [get_resnet], whatever it is: the branch that raises the exception for an
    unknown name is never taken, and [train] goes on to resolve the
    optimizer and to train whenever [get_resnet] returns a model. *)
Theorem unlisted_model_name_goes_to_get_resnet (model_name : string) (batch_size : Z)
    (learning_rate weight_decay momentum dropout_prob : option float)
    (num_epochs : Z) (optimizer_name : option string)
    (tune_hyperparams : option bool) (tuning_trials : option Z) :
  truthy tune_hyperparams = false ->
  ~ In model_name ["base"; "Base"; "dynamic"; "Dynamic"; "bigger"; "Bigger"] ->
  select_model model_name dropout_prob tune_hyperparams get_num_classes =
    get_resnet model_name /\
  train model_name batch_size learning_rate weight_decay momentum dropout_prob
    num_epochs optimizer_name tune_hyperparams tuning_trials =
    match get_resnet model_name with
    | Raise e => (Raise e, [])
    | Ok model_fn =>
      train_model model_fn batch_size learning_rate weight_decay momentum
        num_epochs optimizer_name
    end.
Proof.
  intros Htune Hname.
  assert (Hsel : select_model model_name dropout_prob tune_hyperparams get_num_classes =
                 get_resnet model_name).
  { unfold select_model.
    rewrite !py_in_not_In; [reflexivity | | |];
      intros Hin; apply Hname; simpl in *; tauto. }
  split; [exact Hsel|].
  unfold train. rewrite Htune, Hsel. reflexivity.
Qed.

End EntryFacts.

(** ** More on the resolver *)

Section ResolverMore.
Context `{C : Collaborators}.

Lemma spellings_by_family (n : string) :
  py_in n spellings =
  py_in n ["adam"; "Adam"] || py_in n ["sgd"; "SGD"] ||
  py_in n ["rmsprop"; "RMSprop"; "RMSProp"].
Proof.
  unfold py_in, spellings. cbn [existsb].
  repeat (destruct (String.eqb n _); [reflexivity|]). reflexivity.
Qed.

(** The inner loop of the comprehension: every spelling of an entry is
    bound to the entry's optimizer, the other keys keep their value. *)
Lemma spellings_inserted (o : Optimizer) (sps : list string) (s : string) :
  forall d : gmap string Optimizer,
  fold_left (fun d' spelling => <[spelling := o]> d') sps d !! s =
  if py_in s sps then Some o else d !! s.
Proof.
  induction sps as [|sp sps IH]; intros d; [reflexivity|].
  cbn [fold_left]. rewrite IH. unfold py_in. cbn [existsb].
  fold (py_in s sps). destruct (py_in s sps).
  - rewrite orb_true_r. reflexivity.
  - rewrite orb_false_r, lookup_insert. case_decide as Hk.
    + subst. rewrite String.eqb_refl. reflexivity.
    + apply not_eq_sym, String.eqb_neq in Hk. rewrite Hk. reflexivity.
Qed.

Lemma find_last_entry {A : Type} (f : A -> bool) (l : list A) (x : A) :
  find f (l ++ [x]) =
  match find f l with
  | Some y => Some y
  | None => if f x then Some x else None
  end.
Proof.
  induction l as [|y l IH]; cbn; [reflexivity|].
  destruct (f y); [reflexivity | exact IH].
Qed.

Lemma comprehension_from (s : string) (table : list (list string * Optimizer)) :
  forall d : gmap string Optimizer,
  fold_left
    (fun d0 entry =>
       fold_left (fun d' spelling => <[spelling := snd entry]> d') (fst entry) d0)
    table d !! s =
  match find (fun entry => py_in s (fst entry)) (rev table) with
  | Some entry => Some (snd entry)
  | None => d !! s
  end.
Proof.
  induction table as [|e t IH]; intros d; [reflexivity|].
  cbn [fold_left rev]. rewrite IH, find_last_entry.
  destruct (find _ (rev t)); [reflexivity|].
  rewrite spellings_inserted. destruct (py_in s (fst e)); reflexivity.
Qed.

(** X1.  In the dict built by the comprehension of lines 65-67, whatever
    the table, a spelling is bound to the optimizer of the last entry that
    lists it, and a spelling no entry lists is not a key. *)
Theorem optimizer_for_each_spelling_last_entry_wins
    (table : list (list string * Optimizer)) (s : string) :
  optimizer_for_each_spelling table !! s =
  match find (fun entry => py_in s (fst entry)) (rev table) with
  | Some entry => Some (snd entry)
  | None => None
  end.
Proof.
  unfold optimizer_for_each_spelling. rewrite comprehension_from.
  destruct (find _ _); [reflexivity | apply lookup_empty].
Qed.

(** X2.  Leaving the name out is the same as asking for "adam": the two
    calls return the same optimizer or raise the same exception. *)
Theorem absent_name_resolves_as_adam (params : Params)
    (learning_rate weight_decay momentum : option float) :
  get_optimizer params None learning_rate weight_decay momentum =
  get_optimizer params (Some "adam") learning_rate weight_decay momentum.
Proof.
  unfold get_optimizer, optimizers_and_likely_spellings.
  destruct (Adam params learning_rate weight_decay) as [a|]; [|reflexivity].
  destruct (SGD params learning_rate momentum weight_decay) as [s|]; [|reflexivity].
  destruct (RMSprop params learning_rate weight_decay momentum) as [r|]; reflexivity.
Qed.

(** X3.  The resolver returns an optimizer exactly when the name is absent
    or one of the seven spellings and each of the three constructors accepts
    the hyperparameters. *)
Theorem get_optimizer_succeeds_iff (params : Params) (name : option string)
    (learning_rate weight_decay momentum : option float) :
  is_ok (get_optimizer params name learning_rate weight_decay momentum) = true <->
  match name with None => True | Some n => In n spellings end /\
  is_ok (Adam params learning_rate weight_decay) = true /\
  is_ok (SGD params learning_rate momentum weight_decay) = true /\
  is_ok (RMSprop params learning_rate weight_decay momentum) = true.
Proof.
  split.
  - intros Hok.
    destruct (get_optimizer params name learning_rate weight_decay momentum) as [o|] eqn:Hget;
      [|discriminate].
    destruct (get_optimizer_ok_inv _ _ _ _ _ o Hget) as (a & s & r & Ha & Hs & Hr).
    rewrite Ha, Hs, Hr. repeat split.
    destruct name as [n|]; [|exact I].
    rewrite (get_optimizer_built _ _ _ _ _ a s r Ha Hs Hr) in Hget.
    apply py_in_In. rewrite spellings_by_family.
    destruct (py_in n ["adam"; "Adam"]); [reflexivity|].
    destruct (py_in n ["sgd"; "SGD"]); [reflexivity|].
    destruct (py_in n ["rmsprop"; "RMSprop"; "RMSProp"]); [reflexivity | discriminate].
  - intros (Hname & Ha & Hs & Hr).
    destruct (Adam params learning_rate weight_decay) as [a|] eqn:Ea; [|discriminate].
    destruct (SGD params learning_rate momentum weight_decay) as [s|] eqn:Es; [|discriminate].
    destruct (RMSprop params learning_rate weight_decay momentum) as [r|] eqn:Er;
      [|discriminate].
    rewrite (get_optimizer_built _ _ _ _ _ a s r Ea Es Er).
    destruct name as [n|]; [|reflexivity].
    apply py_in_In in Hname. rewrite spellings_by_family in Hname.
    destruct (py_in n ["adam"; "Adam"]); [reflexivity|].
    destruct (py_in n ["sgd"; "SGD"]); [reflexivity|].
    destruct (py_in n ["rmsprop"; "RMSprop"; "RMSProp"]); [reflexivity | discriminate].
Qed.

(** X4.  The Adam optimizer is built without the momentum: two calls that
    ask for Adam (by "adam", "Adam" or no name), differ in the momentum only
    and both return, return the same optimizer. *)
Theorem adam_is_built_without_the_momentum (params : Params) (name : option string)
    (learning_rate weight_decay momentum1 momentum2 : option float)
    (o1 o2 : Optimizer) :
  name = None \/ name = Some "adam" \/ name = Some "Adam" ->
  get_optimizer params name learning_rate weight_decay momentum1 = Ok o1 ->
  get_optimizer params name learning_rate weight_decay momentum2 = Ok o2 ->
  o1 = o2.
Proof.
  intros Hname H1 H2.
  destruct (get_optimizer_ok_inv _ _ _ _ _ o1 H1) as (a1 & s1 & r1 & Ha1 & Hs1 & Hr1).
  destruct (get_optimizer_ok_inv _ _ _ _ _ o2 H2) as (a2 & s2 & r2 & Ha2 & Hs2 & Hr2).
  rewrite (get_optimizer_built _ _ _ _ _ a1 s1 r1 Ha1 Hs1 Hr1) in H1.
  rewrite (get_optimizer_built _ _ _ _ _ a2 s2 r2 Ha2 Hs2 Hr2) in H2.
  assert (Ha : a1 = a2) by congruence.
  destruct Hname as [->|[->| ->]]; cbn in H1, H2; congruence.
Qed.

End ResolverMore.


(** ** More on the loop *)

Section LoopMore.
Context `{C : Collaborators}.

Lemma confusion_matrices_app (t1 t2 : list Event) :
  confusion_matrices (t1 ++ t2) = confusion_matrices t1 ++ confusion_matrices t2.
Proof. apply flat_map_app. Qed.

Lemma confusion_matrices_train_events (m : Mode) (g : bool) (losses : list float) :
  confusion_matrices (train_events m g losses) = [].
Proof. induction losses as [|v vs IH]; [reflexivity | exact IH]. Qed.

Lemma confusion_matrices_val_events (m : Mode) (g : bool) (rows : list BatchValues) :
  confusion_matrices (val_events m g rows) = [].
Proof. induction rows as [|r rs IH]; [reflexivity | exact IH]. Qed.

Lemma confusion_matrices_epoch_events (g : bool) (N M e : Z) (er : EpochRun) :
  confusion_matrices (epoch_events g N M e er) = [(er_y_true er, er_y_predicted er)].
Proof.
  unfold epoch_events.
  rewrite !confusion_matrices_app, confusion_matrices_train_events,
    confusion_matrices_val_events.
  reflexivity.
Qed.

Lemma confusion_matrices_segments (g : bool) (n_train n_val : nat) (epochs : list Z)
    (segs : list (list Event)) :
  Forall2 (epoch_segment g n_train n_val) epochs segs ->
  length (confusion_matrices (concat segs)) = length epochs.
Proof.
  induction 1 as [|e seg es segs' (er & _ & _ & ->) _ IH]; [reflexivity|].
  cbn [concat]. rewrite confusion_matrices_app, confusion_matrices_epoch_events.
  cbn. rewrite IH. reflexivity.
Qed.

(** One validation step, in full: what it leaves in the model and in the
    names [labels] and [predictions]. *)
Lemma val_batch_frame (criterion : Output -> Labels -> Loss) (device : Device)
    (w : World) (totals : ValTotals) (lab : option Labels) (pr : option Preds)
    (batch : Images * Labels) :
  w_params (fst (fst (fst (val_batch criterion device (w, totals, lab, pr) batch)))) =
    w_params w /\
  w_optimizer (fst (fst (fst (val_batch criterion device (w, totals, lab, pr) batch)))) =
    w_optimizer w /\
  w_mode (fst (fst (fst (val_batch criterion device (w, totals, lab, pr) batch)))) =
    w_mode w /\
  w_grad_enabled (fst (fst (fst (val_batch criterion device (w, totals, lab, pr) batch)))) =
    w_grad_enabled w /\
  snd (fst (val_batch criterion device (w, totals, lab, pr) batch)) =
    Some (labels_to device (snd batch)) /\
  snd (val_batch criterion device (w, totals, lab, pr) batch) =
    Some (predictions_of
            (forward (w_mode w) (w_grad_enabled w) (w_params w)
               (images_to device (fst batch)))).
Proof. repeat split. Qed.

Lemma val_phase_frame (criterion : Output -> Labels -> Loss) (device : Device)
    (batches : list (Images * Labels)) :
  forall (st : World * ValTotals * option Labels * option Preds),
  w_params (fst (fst (fst (fold_left (val_batch criterion device) batches st)))) =
    w_params (fst (fst (fst st))) /\
  w_optimizer (fst (fst (fst (fold_left (val_batch criterion device) batches st)))) =
    w_optimizer (fst (fst (fst st))) /\
  w_mode (fst (fst (fst (fold_left (val_batch criterion device) batches st)))) =
    w_mode (fst (fst (fst st))) /\
  w_grad_enabled (fst (fst (fst (fold_left (val_batch criterion device) batches st)))) =
    w_grad_enabled (fst (fst (fst st))).
Proof.
  induction batches as [|b bs IH]; intros st; [repeat split|].
  cbn [fold_left].
  destruct (IH (val_batch criterion device st b)) as (Hp & Ho & Hm & Hg).
  destruct st as [[[w t] l] p].
  destruct (val_batch_frame criterion device w t l p b) as (Hp1 & Ho1 & Hm1 & Hg1 & _).
  cbn [fst]. rewrite Hp, Ho, Hm, Hg, Hp1, Ho1, Hm1, Hg1. repeat split.
Qed.

(** X5.  The validation pass of lines 175-190 only reads the model: over
    any loader it leaves the parameters, the optimizer, the mode flag and
    the grad mode as it found them. *)
Theorem validation_pass_leaves_the_model_untouched
    (criterion : Output -> Labels -> Loss) (device : Device)
    (batches : list (Images * Labels)) (w : World) (totals : ValTotals)
    (lab : option Labels) (pr : option Preds) :
  w_params (fst (fst (fst (fold_left (val_batch criterion device) batches
                             (w, totals, lab, pr))))) = w_params w /\
  w_optimizer (fst (fst (fst (fold_left (val_batch criterion device) batches
                                (w, totals, lab, pr))))) = w_optimizer w /\
  w_mode (fst (fst (fst (fold_left (val_batch criterion device) batches
                           (w, totals, lab, pr))))) = w_mode w /\
  w_grad_enabled (fst (fst (fst (fold_left (val_batch criterion device) batches
                                   (w, totals, lab, pr))))) = w_grad_enabled w.
Proof. exact (val_phase_frame criterion device batches (w, totals, lab, pr)). Qed.

(** What an epoch leaves in [labels] and [predictions] when the validation
    loader ends with batch [b]. *)
Lemma run_epoch_last_batch (criterion : Output -> Labels -> Loss) (device : Device)
    (train_loader : list (Images * Labels)) (batch_size epoch : Z)
    (loc : Locals) (w : World)
    (init : list (Images * Labels)) (b : Images * Labels) (loc' : Locals) (w' : World) :
  train_loader <> [] ->
  make_dataset VAL_DATA_DIR batch_size = init ++ [b] ->
  run_epoch criterion device train_loader (len train_loader) batch_size epoch loc w =
    (Ok loc', w') ->
  l_labels loc' = Some (labels_to device (snd b)) /\
  l_predictions loc' =
    Some (predictions_of
            (forward Evaluation false (w_params w') (images_to device (fst b)))).
Proof.
  intros Htrain Hval. unfold run_epoch.
  destruct (fold_left (train_batch criterion device) train_loader
              (set_mode Training w, fzero, l_labels loc)) as [[w1 t1] l1].
  rewrite (py_truediv_nonempty _ _ Htrain), Hval, fold_left_app.
  cbn [fold_left].
  pose proof (val_phase_frame criterion device init
                (set_grad_enabled false (set_mode Evaluation w1), zero_totals, l1,
                 l_predictions loc)) as (Hp & _ & Hm & Hg).
  destruct (fold_left (val_batch criterion device) init _) as [[[w2 t2] l2] p2].
  cbn [fst set_grad_enabled set_mode w_params w_mode w_grad_enabled] in Hp, Hm, Hg.
  unfold val_batch. cbn [fst snd].
  rewrite py_truediv_nonempty by (destruct init; discriminate).
  intros H. inversion H; subst. clear H.
  cbn [l_labels l_predictions set_grad_enabled emit w_params].
  rewrite Hm, Hg. split; reflexivity.
Qed.

(** The three ways a run ends early, with the objects as it leaves them. *)
Lemma run_leaves_no_epoch (w : World) (criterion : Output -> Labels -> Loss)
    (save : bool) (num_epochs batch_size : Z) :
  num_epochs <= 0 ->
  run_training_loop w criterion save num_epochs batch_size =
  (Raise (UnboundLocalError "val_loss_avg"),
   if save
   then emit (EvTorchSave (state_dict (params_to chosen_device (w_params w))) MODELS_DIR)
          (set_params (params_to chosen_device (w_params w)) w)
   else set_params (params_to chosen_device (w_params w)) w).
Proof.
  intros Hn. unfold run_training_loop, range, chosen_device.
  replace (Z.to_nat num_epochs) with 0%nat by lia.
  cbn [seq map run_epochs no_locals l_averages]. destruct save; reflexivity.
Qed.

Lemma run_leaves_empty_training (w : World) (criterion : Output -> Labels -> Loss)
    (save : bool) (num_epochs batch_size : Z) :
  0 < num_epochs ->
  make_dataset TRAIN_DATA_DIR batch_size = [] ->
  run_training_loop w criterion save num_epochs batch_size =
  (Raise ZeroDivisionError,
   set_mode Training (set_params (params_to chosen_device (w_params w)) w)).
Proof.
  intros Hn Htrain. unfold run_training_loop, chosen_device.
  destruct (range_cons num_epochs Hn) as [rest ->]. cbn [run_epochs].
  unfold run_epoch. rewrite Htrain. reflexivity.
Qed.

Lemma run_leaves_empty_validation (w : World) (criterion : Output -> Labels -> Loss)
    (save : bool) (num_epochs batch_size : Z) :
  0 < num_epochs ->
  make_dataset TRAIN_DATA_DIR batch_size <> [] ->
  make_dataset VAL_DATA_DIR batch_size = [] ->
  exists losses w',
    run_training_loop w criterion save num_epochs batch_size =
      (Raise ZeroDivisionError, w') /\
    length losses = length (make_dataset TRAIN_DATA_DIR batch_size) /\
    w_trace w' = w_trace w ++ train_events Training (w_grad_enabled w) losses /\
    w_mode w' = Evaluation /\
    w_grad_enabled w' = w_grad_enabled w.
Proof.
  intros Hn Htrain Hval. unfold run_training_loop.
  set (device := if cuda_is_available then Cuda else Cpu).
  set (w0 := set_params (params_to device (w_params w)) w).
  destruct (range_cons num_epochs Hn) as [rest ->]. cbn [run_epochs].
  unfold run_epoch.
  destruct (train_phase_spec criterion device (make_dataset TRAIN_DATA_DIR batch_size)
              (set_mode Training w0) fzero (l_labels no_locals))
    as (losses & w1 & lab1 & Hfold & Hlen & Htr & Hm & Hg).
  rewrite Hfold, (py_truediv_nonempty _ _ Htrain), Hval.
  cbn [fold_left len length py_truediv Z.of_nat Z.eqb zero_totals val_loss_total].
  exists losses. eexists. split; [reflexivity|].
  cbn [set_grad_enabled set_mode w_trace w_mode w_grad_enabled].
  repeat split; assumption.
Qed.

(** X6.  A run of no epoch ([num_epochs <= 0]) does not return: it moves the
    model to the device, writes the untrained parameters if [save] is set,
    and raises [UnboundLocalError] at the [return]; the mode flag is not
    touched. *)
Theorem no_epoch_run_writes_then_raises (w : World)
    (criterion : Output -> Labels -> Loss) (save : bool) (num_epochs batch_size : Z) :
  num_epochs <= 0 ->
  fst (run_training_loop w criterion save num_epochs batch_size) =
    Raise (UnboundLocalError "val_loss_avg") /\
  w_trace (snd (run_training_loop w criterion save num_epochs batch_size)) =
    w_trace w ++
    (if save
     then [EvTorchSave (state_dict (params_to chosen_device (w_params w))) MODELS_DIR]
     else []) /\
  w_params (snd (run_training_loop w criterion save num_epochs batch_size)) =
    params_to chosen_device (w_params w) /\
  w_mode (snd (run_training_loop w criterion save num_epochs batch_size)) = w_mode w.
Proof.
  intros Hn. rewrite (run_leaves_no_epoch w criterion save num_epochs batch_size Hn).
  destruct save; cbn; rewrite ?app_nil_r; repeat split.
Qed.

(** X7.  With an empty training loader a run of at least one epoch raises
    [ZeroDivisionError] before any forward pass: it makes no call at all,
    and leaves the parameters as moved to the device, the optimizer as it
    was, and the model in training mode. *)
Theorem empty_training_loader_stops_before_any_call (w : World)
    (criterion : Output -> Labels -> Loss) (save : bool) (num_epochs batch_size : Z) :
  0 < num_epochs ->
  make_dataset TRAIN_DATA_DIR batch_size = [] ->
  fst (run_training_loop w criterion save num_epochs batch_size) =
    Raise ZeroDivisionError /\
  w_trace (snd (run_training_loop w criterion save num_epochs batch_size)) = w_trace w /\
  w_params (snd (run_training_loop w criterion save num_epochs batch_size)) =
    params_to chosen_device (w_params w) /\
  w_optimizer (snd (run_training_loop w criterion save num_epochs batch_size)) =
    w_optimizer w /\
  w_mode (snd (run_training_loop w criterion save num_epochs batch_size)) = Training.
Proof.
  intros Hn Htrain.
  rewrite (run_leaves_empty_training w criterion save num_epochs batch_size Hn Htrain).
  repeat split.
Qed.

(** X8.  With an empty validation loader and a non-empty training loader,
    the whole training pass of the first epoch is made (one forward pass per
    training batch, in training mode) before the run raises
    [ZeroDivisionError]; no validation pass is made, the model is left in
    evaluation mode and the grad mode is restored. *)
Theorem empty_validation_loader_stops_after_the_training_pass (w : World)
    (criterion : Output -> Labels -> Loss) (save : bool) (num_epochs batch_size : Z) :
  0 < num_epochs ->
  make_dataset TRAIN_DATA_DIR batch_size <> [] ->
  make_dataset VAL_DATA_DIR batch_size = [] ->
  exists new,
    fst (run_training_loop w criterion save num_epochs batch_size) =
      Raise ZeroDivisionError /\
    w_trace (snd (run_training_loop w criterion save num_epochs batch_size)) =
      w_trace w ++ new /\
    forward_calls new =
      repeat (PhaseT, Training, w_grad_enabled w)
        (length (make_dataset TRAIN_DATA_DIR batch_size)) /\
    w_mode (snd (run_training_loop w criterion save num_epochs batch_size)) = Evaluation /\
    w_grad_enabled (snd (run_training_loop w criterion save num_epochs batch_size)) =
      w_grad_enabled w.
Proof.
  intros Hn Htrain Hval.
  destruct (run_leaves_empty_validation w criterion save num_epochs batch_size
              Hn Htrain Hval) as (losses & w' & Hrun & Hlen & Htr & Hm & Hg).
  rewrite Hrun. exists (train_events Training (w_grad_enabled w) losses).
  cbn [fst snd]. split; [reflexivity|]. split; [exact Htr|].
  split; [rewrite forward_calls_train_events, Hlen; reflexivity|].
  split; assumption.
Qed.

(** X9.  Whatever the outcome of a run (a return or any of its exceptions),
    torch's grad mode is afterwards what it was before: the [no_grad] block
    never leaks. *)
Theorem grad_mode_is_restored_after_every_run (w : World)
    (criterion : Output -> Labels -> Loss) (save : bool) (num_epochs batch_size : Z) :
  w_grad_enabled (snd (run_training_loop w criterion save num_epochs batch_size)) =
  w_grad_enabled w.
Proof.
  destruct (Z_lt_le_dec 0 num_epochs) as [Hn|Hn].
  - destruct (list_eq_nil_dec (make_dataset TRAIN_DATA_DIR batch_size)) as [Htrain|Htrain].
    + rewrite (run_leaves_empty_training w criterion save num_epochs batch_size Hn Htrain).
      reflexivity.
    + destruct (list_eq_nil_dec (make_dataset VAL_DATA_DIR batch_size)) as [Hval|Hval].
      * destruct (run_leaves_empty_validation w criterion save num_epochs batch_size
                    Hn Htrain Hval) as (losses & w' & Hrun & _ & _ & _ & Hg).
        rewrite Hrun. exact Hg.
      * destruct (run_training_loop_trace w criterion save num_epochs batch_size
                    Htrain Hval) as (segs & tail & _ & _ & _ & _ & Hg).
        exact Hg.
  - rewrite (run_leaves_no_epoch w criterion save num_epochs batch_size Hn).
    destruct save; reflexivity.
Qed.

(** X10.  Training for one more epoch only adds to what a shorter run does:
    on non-empty loaders and without [save], the calls of a run of
    [n + 1] epochs are the calls of a run of [n] epochs followed by the
    calls of one epoch, which reports one record, numbered [n]. *)
Theorem one_more_epoch_only_appends (w : World)
    (criterion : Output -> Labels -> Loss) (n batch_size : Z) :
  make_dataset TRAIN_DATA_DIR batch_size <> [] ->
  make_dataset VAL_DATA_DIR batch_size <> [] ->
  0 <= n ->
  exists seg,
    w_trace (snd (run_training_loop w criterion false (n + 1) batch_size)) =
      w_trace (snd (run_training_loop w criterion false n batch_size)) ++ seg /\
    map Epoch (logged_metrics seg) = [n] /\
    forward_calls seg =
      repeat (PhaseT, Training, w_grad_enabled w)
        (length (make_dataset TRAIN_DATA_DIR batch_size)) ++
      repeat (PhaseV, Evaluation, false)
        (length (make_dataset VAL_DATA_DIR batch_size)).
Proof.
  intros Htrain Hval Hn. unfold run_training_loop.
  set (device := if cuda_is_available then Cuda else Cpu).
  set (w0 := set_params (params_to device (w_params w)) w).
  rewrite (range_pos (n + 1)) by lia.
  replace (n + 1 - 1) with n by lia.
  rewrite run_epochs_app.
  destruct (run_epochs_spec criterion device _ batch_size Htrain Hval (range n) no_locals w0)
    as (segs & loc1 & w1 & Hrun & _ & _ & Hg & _).
  rewrite Hrun. cbn [run_epochs].
  destruct (run_epoch_spec criterion device _ batch_size n loc1 w1 Htrain Hval)
    as (er & w2 & Hlast & Hl1 & Hl2 & Htr2 & _).
  rewrite Hlast. cbn [l_averages snd].
  eexists. split.
  - destruct (l_averages loc1); cbn [snd]; exact Htr2.
  - rewrite logged_metrics_epoch_events, forward_calls_epoch_events, Hl1, Hl2, Hg.
    split; reflexivity.
Qed.

(** X11.  On non-empty loaders a run of at least one epoch reports one
    confusion matrix per epoch, and the one reported last is built from the
    last validation batch alone: its labels are that batch's labels, its
    predictions are those of the model, in evaluation mode and with the
    parameters the run ends with, on that batch's images. *)
Theorem confusion_matrix_is_of_the_last_validation_batch (w : World)
    (criterion : Output -> Labels -> Loss) (save : bool) (num_epochs batch_size : Z)
    (init : list (Images * Labels)) (b : Images * Labels) :
  make_dataset TRAIN_DATA_DIR batch_size <> [] ->
  make_dataset VAL_DATA_DIR batch_size = init ++ [b] ->
  0 < num_epochs ->
  exists new earlier,
    w_trace (snd (run_training_loop w criterion save num_epochs batch_size)) =
      w_trace w ++ new /\
    length (confusion_matrices new) = Z.to_nat num_epochs /\
    confusion_matrices new =
      earlier ++
      [(labels_to chosen_device (snd b),
        predictions_of
          (forward Evaluation false
             (w_params (snd (run_training_loop w criterion save num_epochs batch_size)))
             (images_to chosen_device (fst b))))].
Proof.
  intros Htrain Hvaleq Hn.
  assert (Hval : make_dataset VAL_DATA_DIR batch_size <> [])
    by (rewrite Hvaleq; destruct init; discriminate).
  unfold run_training_loop, chosen_device.
  set (device := if cuda_is_available then Cuda else Cpu).
  set (w0 := set_params (params_to device (w_params w)) w).
  rewrite (range_pos num_epochs Hn), run_epochs_app.
  destruct (run_epochs_spec criterion device _ batch_size Htrain Hval
              (range (num_epochs - 1)) no_locals w0)
    as (segs & loc1 & w1 & Hrun & Hsegs & Htr & _).
  rewrite Hrun. cbn [run_epochs].
  destruct (run_epoch_spec criterion device _ batch_size (num_epochs - 1) loc1 w1
              Htrain Hval)
    as (er & w2 & Hlast & _ & _ & Htr2 & _).
  destruct (run_epoch_last_batch criterion device _ batch_size (num_epochs - 1) loc1 w1
              init b _ w2 Htrain Hvaleq Hlast) as (Hy & Hp).
  cbn [l_labels l_predictions] in Hy, Hp. inversion Hy as [Hy']. inversion Hp as [Hp'].
  rewrite Hlast. cbn [l_averages].
  pose proof (confusion_matrices_segments _ _ _ _ _ Hsegs) as Hcount.
  rewrite range_length in Hcount.
  set (seg := epoch_events _ _ _ _ er) in Htr2.
  exists (concat segs ++ seg ++
          if save then [EvTorchSave (state_dict (w_params w2)) MODELS_DIR] else []),
    (confusion_matrices (concat segs)).
  assert (Hcm : confusion_matrices
                  (concat segs ++ seg ++
                   if save then [EvTorchSave (state_dict (w_params w2)) MODELS_DIR] else []) =
                confusion_matrices (concat segs) ++ [(er_y_true er, er_y_predicted er)]).
  { rewrite !confusion_matrices_app. subst seg.
    rewrite confusion_matrices_epoch_events.
    destruct save; cbn; rewrite ?app_nil_r; reflexivity. }
  split; [|split].
  - destruct save; cbn [snd emit w_trace]; rewrite Htr2, Htr; subst w0;
      cbn [set_params w_trace]; rewrite <- ?app_assoc, ?app_nil_r; reflexivity.
  - rewrite Hcm, length_app, Hcount. cbn. lia.
  - rewrite Hcm, Hy', Hp'. destruct save; reflexivity.
Qed.

End LoopMore.


(** ** More on the entry point *)

Section EntryMore.
Context `{C : Collaborators}.

(** A run that returns had at least one epoch and two non-empty loaders. *)
Lemma run_training_loop_ok_inv (w : World) (criterion : Output -> Labels -> Loss)
    (save : bool) (num_epochs batch_size : Z) :
  is_ok (fst (run_training_loop w criterion save num_epochs batch_size)) = true ->
  0 < num_epochs /\
  make_dataset TRAIN_DATA_DIR batch_size <> [] /\
  make_dataset VAL_DATA_DIR batch_size <> [].
Proof.
  intros Hok.
  destruct (Z_lt_le_dec 0 num_epochs) as [Hn|Hn].
  - split; [exact Hn|].
    destruct (list_eq_nil_dec (make_dataset TRAIN_DATA_DIR batch_size)) as [Htrain|Htrain].
    + rewrite (run_leaves_empty_training w criterion save num_epochs batch_size Hn Htrain)
        in Hok. discriminate.
    + split; [exact Htrain|]. intros Hval.
      destruct (run_leaves_empty_validation w criterion save num_epochs batch_size
                  Hn Htrain Hval) as (losses & w' & Hrun & _).
      rewrite Hrun in Hok. discriminate.
  - rewrite (run_leaves_no_epoch w criterion save num_epochs batch_size Hn) in Hok.
    discriminate.
Qed.


(** X13.  With tuning off, a call of [train] that returns has always saved
    the model: its calls end with one write to [MODELS_DIR], the only write,
    made after every one of the [num_epochs >= 1] epochs was reported. *)
Theorem untuned_train_ends_with_the_write (model_name : string) (batch_size : Z)
    (learning_rate weight_decay momentum dropout_prob : option float)
    (num_epochs : Z) (optimizer_name : option string)
    (tune_hyperparams : option bool) (tuning_trials : option Z) :
  truthy tune_hyperparams = false ->
  fst (train model_name batch_size learning_rate weight_decay momentum dropout_prob
         num_epochs optimizer_name tune_hyperparams tuning_trials) = Ok tt ->
  exists before blob,
    snd (train model_name batch_size learning_rate weight_decay momentum dropout_prob
           num_epochs optimizer_name tune_hyperparams tuning_trials) =
      before ++ [EvTorchSave blob MODELS_DIR] /\
    saved before = [] /\
    map Epoch (logged_metrics before) = range num_epochs /\
    0 < num_epochs.
Proof.
  intros Htune. unfold train. rewrite Htune. cbn [negb].
  destruct (select_model model_name dropout_prob tune_hyperparams get_num_classes)
    as [m|e]; [|discriminate].
  unfold train_model.
  destruct (get_optimizer m optimizer_name learning_rate weight_decay momentum)
    as [o|e]; [|discriminate].
  destruct (run_training_loop (initial_world m o) CrossEntropyLoss true num_epochs
              batch_size) as [r w'] eqn:Hrun.
  cbn [fst snd]. intros Hret.
  assert (Hok : is_ok (fst (run_training_loop (initial_world m o) CrossEntropyLoss true
                              num_epochs batch_size)) = true).
  { rewrite Hrun. destruct r; [reflexivity | discriminate]. }
  destruct (run_training_loop_ok_inv _ _ _ _ _ Hok) as (Hn & Htrain & Hval).
  destruct (run_training_loop_spec (initial_world m o) CrossEntropyLoss true num_epochs
              batch_size Htrain Hval Hn)
    as (segs & er & w1 & Hspec & Hsegs & _ & _ & Htr & _).
  rewrite Hspec in Hrun. inversion Hrun; subst. clear Hrun.
  cbn [emit w_trace]. rewrite Htr. cbn [initial_world w_trace app].
  eexists _, _. split; [reflexivity|].
  destruct (segments_observed _ _ _ _ _ Hsegs) as (Hs & Hlog & _).
  rewrite saved_app, logged_metrics_app, map_app, Hs, Hlog.
  rewrite saved_epoch_events, logged_metrics_epoch_events.
  split; [reflexivity|]. split; [|exact Hn].
  cbn. rewrite (range_pos num_epochs Hn). reflexivity.
Qed.

(** X14.  [dropout_prob] reaches the dynamic model only: for a name other
    than "dynamic" and "Dynamic", [train] does the same whatever
    [dropout_prob] is. *)
Theorem dropout_prob_matters_for_the_dynamic_model_only (model_name : string)
    (batch_size : Z)
    (learning_rate weight_decay momentum dropout_prob1 dropout_prob2 : option float)
    (num_epochs : Z) (optimizer_name : option string)
    (tune_hyperparams : option bool) (tuning_trials : option Z) :
  ~ In model_name ["dynamic"; "Dynamic"] ->
  train model_name batch_size learning_rate weight_decay momentum dropout_prob1
    num_epochs optimizer_name tune_hyperparams tuning_trials =
  train model_name batch_size learning_rate weight_decay momentum dropout_prob2
    num_epochs optimizer_name tune_hyperparams tuning_trials.
Proof.
  intros Hname. unfold train, select_model.
  rewrite (py_in_not_In _ _ Hname). reflexivity.
Qed.

End EntryMore.


(** ** Runs of the small instance *)

(** C4, what the code does.  With torch's constructors, an absent
    [weight_decay] makes every call of the resolver raise, and so does an
    absent [momentum], whatever the name and the learning rate: [None] is
    handed to the constructors as it is, and no default takes its place. *)
Theorem absent_hyperparameter_makes_get_optimizer_raise (params : Toy.params)
    (name : option string) (learning_rate other : option Q) :
  is_ok (@get_optimizer Toy.collaborators params name learning_rate None other) = false /\
  is_ok (@get_optimizer Toy.collaborators params name learning_rate other None) = false.
Proof.
  unfold get_optimizer, optimizers_and_likely_spellings. cbn [Adam SGD RMSprop Toy.collaborators
    Toy.collaborators_at]. unfold Torch.Adam, Torch.SGD, Torch.RMSprop.
  split.
  - destruct (Torch.check learning_rate); reflexivity.
  - destruct (Torch.check learning_rate); [|reflexivity].
    cbn [bind Torch.check]. destruct (Torch.check other); reflexivity.
Qed.

Example adam_with_absent_hyperparameters :
  @get_optimizer Toy.collaborators (1%Q, 0%Q) (Some "adam") (Some (1 # 1000)%Q) None None =
  Raise TypeError.
Proof. reflexivity. Qed.

(** Adam takes no momentum, yet asking for Adam without one fails: the SGD
    constructor, run on the way, rejects it. *)
Example adam_fails_on_the_momentum_of_sgd :
  @Adam Toy.collaborators (1%Q, 0%Q) (Some (1 # 1000)%Q) (Some 0%Q) =
    Ok {| Torch.family := Torch.FAdam; Torch.lr := 1 # 1000; Torch.weight_decay := 0;
          Torch.momentum := None |} /\
  @get_optimizer Toy.collaborators (1%Q, 0%Q) (Some "adam") (Some (1 # 1000)%Q)
    (Some 0%Q) None = Raise TypeError.
Proof. split; reflexivity. Qed.

Example absent_name_is_adam :
  @get_optimizer Toy.collaborators (1%Q, 0%Q) None (Some (1 # 1000)%Q) (Some 0%Q) (Some 0%Q) =
  @get_optimizer Toy.collaborators (1%Q, 0%Q) (Some "adam") (Some (1 # 1000)%Q)
    (Some 0%Q) (Some 0%Q).
Proof. reflexivity. Qed.

(** C2 as stated fails: "unknown" is none of the seven spellings, and with
    an absent weight decay the call raises [TypeError], from the Adam
    constructor, not [NotImplementedError]. *)
Lemma unknown_name_with_absent_weight_decay :
  ~ In "unknown" spellings /\
  @get_optimizer Toy.collaborators (1%Q, 0%Q) (Some "unknown") (Some (1 # 1000)%Q)
    None None = Raise TypeError /\
  (forall msg,
     @get_optimizer Toy.collaborators (1%Q, 0%Q) (Some "unknown") (Some (1 # 1000)%Q)
       None None <> Raise (NotImplementedError msg)).
Proof.
  split; [|split].
  - unfold spellings. simpl. intuition discriminate.
  - reflexivity.
  - intros msg. discriminate.
Qed.

Lemma unlisted_name_is_never_resolved_witness :
  ~ In "unknown" spellings /\
  @get_optimizer Toy.collaborators (1%Q, 0%Q) (Some "unknown") (Some (1 # 1000)%Q)
    (Some 0%Q) (Some 0%Q) = Raise (NotImplementedError not_implemented_msg).
Proof.
  assert (H : ~ In "unknown" spellings) by (unfold spellings; simpl; intuition discriminate).
  split; [exact H|].
  refine (proj2 (@unlisted_name_is_never_resolved Toy.collaborators (1%Q, 0%Q) "unknown"
            (Some (1 # 1000)%Q) (Some 0%Q) (Some 0%Q) H) _ _ _ _ _ _); reflexivity.
Defined.

(** C5 as stated fails: "ADAM" is "adam" in another casing, "adam" gives the
    Adam optimizer, "ADAM" raises. *)
Lemma upper_case_name_is_rejected :
  lower "ADAM" = "adam" /\
  is_ok (@get_optimizer Toy.collaborators (1%Q, 0%Q) (Some "adam") (Some (1 # 1000)%Q)
           (Some 0%Q) (Some 0%Q)) = true /\
  @get_optimizer Toy.collaborators (1%Q, 0%Q) (Some "ADAM") (Some (1 # 1000)%Q)
    (Some 0%Q) (Some 0%Q) = Raise (NotImplementedError not_implemented_msg).
Proof. repeat split. Qed.

Lemma listed_spellings_resolve_to_their_family_witness :
  @get_optimizer Toy.collaborators (1%Q, 0%Q) (Some "RMSProp") (Some (1 # 1000)%Q)
    (Some 0%Q) (Some (9 # 10)%Q) =
  Ok {| Torch.family := Torch.FRMSprop; Torch.lr := 1 # 1000; Torch.weight_decay := 0;
        Torch.momentum := Some (9 # 10)%Q |}.
Proof.
  refine (proj1 (proj2 (proj2
    (@listed_spellings_resolve_to_their_family Toy.collaborators (1%Q, 0%Q) "RMSProp"
       (Some (1 # 1000)%Q) (Some 0%Q) (Some (9 # 10)%Q) _ _ _ _ _ _))) _);
    [reflexivity | reflexivity | reflexivity | simpl; tauto].
Defined.

Lemma unlisted_model_name_goes_to_get_resnet_witness :
  @select_model Toy.collaborators "vgg16" None (Some false) 3 = Toy.toy_resnet "vgg16".
Proof.
  refine (proj1 (@unlisted_model_name_goes_to_get_resnet Toy.collaborators "vgg16" 4
    (Some (1 # 10)%Q) (Some 0%Q) (Some 0%Q) None 1 (Some "sgd") (Some false) None _ _)).
  - reflexivity.
  - simpl. intuition discriminate.
Defined.

Lemma toy_training_stream : @make_dataset Toy.collaborators (@TRAIN_DATA_DIR Toy.collaborators) 4 <> [].
Proof. vm_compute. discriminate. Qed.

Lemma toy_validation_stream : @make_dataset Toy.collaborators (@VAL_DATA_DIR Toy.collaborators) 4 <> [].
Proof. vm_compute. discriminate. Qed.

Lemma epoch_averages_divide_batch_sums_by_batch_counts_witness :
  exists segs tail,
    w_trace (snd (@run_training_loop Toy.collaborators Toy.world Toy.toy_loss false 2 4)) =
      w_trace Toy.world ++ concat segs ++ tail /\
    logged_metrics tail = [].
Proof.
  destruct (@epoch_averages_divide_batch_sums_by_batch_counts Toy.collaborators
              Toy.world Toy.toy_loss false 2 4 toy_training_stream toy_validation_stream)
    as (segs & tail & Htr & Htail & _).
  exists segs, tail. split; [exact Htr | exact Htail].
Defined.

Lemma model_mode_follows_the_phase_witness :
  w_mode (snd (@run_training_loop Toy.collaborators Toy.world Toy.toy_loss false 2 4)) =
  Evaluation.
Proof.
  destruct (proj2 (@model_mode_follows_the_phase Toy.collaborators
                     Toy.world Toy.toy_loss false 2 4)
              toy_training_stream toy_validation_stream)
    as (segs & tail & _ & _ & _ & _ & Hmode & _).
  apply Hmode. lia.
Defined.

Lemma returns_loss_accuracy_loss_precision_witness :
  exists r,
    fst (@run_training_loop Toy.collaborators Toy.world Toy.toy_loss false 2 4) =
    Ok [Average_Validation_loss r; Average_Validation_Accuracy r;
        Average_Validation_loss r; Average_Validation_Precision r].
Proof.
  destruct (proj2 (@returns_loss_accuracy_loss_precision Toy.collaborators
                     Toy.world Toy.toy_loss false 2 4) eq_refl)
    as (new & earlier & r & _ & _ & _ & Hret).
  exists r. exact Hret.
Defined.

Lemma save_writes_once_after_the_last_epoch_witness :
  exists metrics w0 w1,
    @run_training_loop Toy.collaborators Toy.world Toy.toy_loss false 2 4 = (Ok metrics, w0) /\
    @run_training_loop Toy.collaborators Toy.world Toy.toy_loss true 2 4 = (Ok metrics, w1) /\
    w_trace w1 = w_trace w0 ++ [EvTorchSave (state_dict (w_params w1)) MODELS_DIR].
Proof.
  assert (Hn : 0 < 2) by lia.
  destruct (proj2 (@save_writes_once_after_the_last_epoch Toy.collaborators
                     Toy.world Toy.toy_loss 2 4)
              toy_training_stream toy_validation_stream Hn)
    as (metrics & new & w0 & w1 & H0 & H1 & Htr0 & Htr1 & _).
  exists metrics, w0, w1. split; [exact H0|]. split; [exact H1|].
  rewrite Htr1, Htr0, <- app_assoc. reflexivity.
Defined.

Lemma empty_loader_raises_ZeroDivisionError_witness :
  fst (@run_training_loop Toy.no_validation Toy.world_no_validation Toy.toy_loss true 2 4) =
    Raise ZeroDivisionError /\
  fst (@run_training_loop Toy.no_training Toy.world_no_training Toy.toy_loss true 2 4) =
    Raise ZeroDivisionError.
Proof.
  assert (Hn : 0 < 2) by lia.
  split.
  - destruct (@empty_loader_raises_ZeroDivisionError Toy.no_validation
                Toy.world_no_validation Toy.toy_loss true 2 4 Hn (or_intror eq_refl))
      as (new & Hraise & _).
    exact Hraise.
  - destruct (@empty_loader_raises_ZeroDivisionError Toy.no_training
                Toy.world_no_training Toy.toy_loss true 2 4 Hn (or_introl eq_refl))
      as (new & Hraise & _).
    exact Hraise.
Defined.

#[local] Existing Instance Toy.collaborators.

(** The end-to-end scenario of one epoch over two training batches. *)
Example one_epoch_without_save :
  fst (@run_training_loop Toy.collaborators Toy.world Toy.toy_loss false 1 4) =
    Ok [(16133 # 320000)%Q; (1 # 2)%Q; (16133 # 320000)%Q; (1 # 2)%Q] /\
  w_mode (snd (@run_training_loop Toy.collaborators Toy.world Toy.toy_loss false 1 4)) =
    Evaluation /\
  w_trace (snd (@run_training_loop Toy.collaborators Toy.world Toy.toy_loss false 1 4)) =
    ([EvForward PhaseT Training true; EvValue PhaseT QLoss (1 # 4)%Q;
     EvForward PhaseT Training true; EvValue PhaseT QLoss (361 # 400)%Q;
     EvForward PhaseV Evaluation false; EvValue PhaseV QLoss (841 # 40000)%Q;
     EvValue PhaseV QRecall 1%Q; EvValue PhaseV QAccuracy 1%Q;
     EvValue PhaseV QPrecision 1%Q;
     EvForward PhaseV Evaluation false; EvValue PhaseV QLoss (12769 # 160000)%Q;
     EvValue PhaseV QRecall 0%Q; EvValue PhaseV QAccuracy 0%Q;
     EvValue PhaseV QPrecision 0%Q;
     EvLogMetrics
       {| Epoch := 0;
          Average_Training_Loss := (461 # 800)%Q;
          Average_Validation_loss := (16133 # 320000)%Q;
          Average_Validation_Accuracy := (1 # 2)%Q;
          Average_Validation_Recall := (1 # 2)%Q;
          Average_Validation_Precision := (1 # 2)%Q |};
     EvLogConfusionMatrix 2 1] : list (@Event Toy.collaborators)).
Proof. vm_compute. repeat split. Qed.

(** No epoch at all: the write still happens, then the names of the
    averages are unbound. *)
Example no_epoch_at_all :
  fst (@run_training_loop Toy.collaborators Toy.world Toy.toy_loss true 0 4) =
    Raise (UnboundLocalError "val_loss_avg").
Proof. reflexivity. Qed.

(** ** Runs of the small instance, continued *)

Lemma adam_is_built_without_the_momentum_witness :
  @get_optimizer Toy.collaborators (1%Q, 0%Q) (Some "adam") (Some (1 # 1000)%Q)
    (Some 0%Q) (Some 0%Q) =
  @get_optimizer Toy.collaborators (1%Q, 0%Q) (Some "adam") (Some (1 # 1000)%Q)
    (Some 0%Q) (Some (9 # 10)%Q).
Proof.
  set (o := {| Torch.family := Torch.FAdam; Torch.lr := 1 # 1000;
               Torch.weight_decay := 0; Torch.momentum := None |}).
  change (@Ok Torch.optimizer o = Ok o). apply (f_equal (@Ok Torch.optimizer)).
  exact (@adam_is_built_without_the_momentum Toy.collaborators (1%Q, 0%Q) (Some "adam")
           (Some (1 # 1000)%Q) (Some 0%Q) (Some 0%Q) (Some (9 # 10)%Q) o o
           (or_intror (or_introl eq_refl)) eq_refl eq_refl).
Defined.

Lemma no_epoch_run_writes_then_raises_witness :
  fst (@run_training_loop Toy.collaborators Toy.world Toy.toy_loss true 0 4) =
    Raise (UnboundLocalError "val_loss_avg") /\
  w_trace (snd (@run_training_loop Toy.collaborators Toy.world Toy.toy_loss true 0 4)) =
    [@EvTorchSave Toy.collaborators 1%Q "models"].
Proof.
  assert (Hn : 0 <= 0) by lia.
  destruct (@no_epoch_run_writes_then_raises Toy.collaborators Toy.world Toy.toy_loss
              true 0 4 Hn) as (Hraise & Htr & _).
  split; [exact Hraise | exact Htr].
Defined.

Lemma empty_training_loader_stops_before_any_call_witness :
  fst (@run_training_loop Toy.no_training Toy.world_no_training Toy.toy_loss true 2 4) =
    Raise ZeroDivisionError /\
  w_trace (snd (@run_training_loop Toy.no_training Toy.world_no_training Toy.toy_loss
                  true 2 4)) = [].
Proof.
  assert (Hn : 0 < 2) by lia.
  destruct (@empty_training_loader_stops_before_any_call Toy.no_training
              Toy.world_no_training Toy.toy_loss true 2 4 Hn eq_refl)
    as (Hraise & Htr & _).
  split; [exact Hraise | exact Htr].
Defined.

Lemma no_validation_training_stream :
  @make_dataset Toy.no_validation (@TRAIN_DATA_DIR Toy.no_validation) 4 <> [].
Proof. vm_compute. discriminate. Qed.

Lemma empty_validation_loader_stops_after_the_training_pass_witness :
  w_mode (snd (@run_training_loop Toy.no_validation Toy.world_no_validation Toy.toy_loss
                 true 2 4)) = Evaluation.
Proof.
  assert (Hn : 0 < 2) by lia.
  destruct (@empty_validation_loader_stops_after_the_training_pass Toy.no_validation
              Toy.world_no_validation Toy.toy_loss true 2 4 Hn
              no_validation_training_stream eq_refl)
    as (new & _ & _ & _ & Hm & _).
  exact Hm.
Defined.

Lemma one_more_epoch_only_appends_witness :
  exists seg,
    w_trace (snd (@run_training_loop Toy.collaborators Toy.world Toy.toy_loss false
                    (1 + 1) 4)) =
    w_trace (snd (@run_training_loop Toy.collaborators Toy.world Toy.toy_loss false 1 4))
    ++ seg /\
    map Epoch (logged_metrics seg) = [1].
Proof.
  assert (Hn : 0 <= 1) by lia.
  destruct (@one_more_epoch_only_appends Toy.collaborators Toy.world Toy.toy_loss 1 4
              toy_training_stream toy_validation_stream Hn)
    as (seg & Htr & Hlog & _).
  exists seg. split; [exact Htr | exact Hlog].
Defined.

Lemma confusion_matrix_is_of_the_last_validation_batch_witness :
  exists new,
    w_trace (snd (@run_training_loop Toy.collaborators Toy.world Toy.toy_loss false 2 4)) =
      w_trace Toy.world ++ new /\
    length (confusion_matrices new) = 2%nat.
Proof.
  assert (Hn : 0 < 2) by lia.
  destruct (@confusion_matrix_is_of_the_last_validation_batch Toy.collaborators
              Toy.world Toy.toy_loss false 2 4 [(1%Q, 1)] ((3 # 2)%Q, 2)
              toy_training_stream eq_refl Hn)
    as (new & earlier & Htr & Hlen & _).
  exists new. split; [exact Htr | exact Hlen].
Defined.


Lemma untuned_train_ends_with_the_write_witness :
  exists before blob,
    snd (@train Toy.collaborators "base" 4 (Some (1 # 10)%Q) (Some 0%Q) (Some 0%Q) None 1
           (Some "sgd") (Some false) None) =
    before ++ [@EvTorchSave Toy.collaborators blob "models"].
Proof.
  destruct (@untuned_train_ends_with_the_write Toy.collaborators "base" 4
              (Some (1 # 10)%Q) (Some 0%Q) (Some 0%Q) None 1 (Some "sgd") (Some false) None
              eq_refl eq_refl)
    as (before & blob & Htr & _).
  exists before, blob. exact Htr.
Defined.

Lemma dropout_prob_matters_for_the_dynamic_model_only_witness :
  @train Toy.collaborators "base" 4 (Some (1 # 10)%Q) (Some 0%Q) (Some 0%Q)
    (Some (1 # 2)%Q) 1 (Some "sgd") (Some false) None =
  @train Toy.collaborators "base" 4 (Some (1 # 10)%Q) (Some 0%Q) (Some 0%Q)
    None 1 (Some "sgd") (Some false) None.
Proof.
  apply (@dropout_prob_matters_for_the_dynamic_model_only Toy.collaborators "base" 4
           (Some (1 # 10)%Q) (Some 0%Q) (Some 0%Q) (Some (1 # 2)%Q) None 1 (Some "sgd")
           (Some false) None).
  simpl. intuition discriminate.
Defined.
